(** * avaya_html_report_cleaner: a shallow embedding of [main]

    The program reads the [<label>] elements of an Avaya phone report,
    places each one on a grid by the [top]/[left] pixel offsets of its
    inline style, rebuilds the wrapped column header, lifts the
    "Label: value" rows into a metadata record, filters the grid into a
    data frame and exports it.

    Conventions of the embedding:
    - Python [str] is [string]; a character is an 8-bit code point
      (Latin-1), which covers the one non-ASCII character the program
      names, the no-break space U+00A0.
    - Python [int] is [Z].
    - an exception is a value of [error] in the [result] monad; a loop is
      a fold in that monad, so the first exception ends the run.
    - the style dictionary built by [css_to_dict] is a [gmap]; the
      dictionaries whose insertion order the program observes
      ([sorted_rows_dict], [metadata_dict]) are association lists.
    - the element list found by BeautifulSoup is the input: each element
      carries its [style] attribute and its [.string], which is [None]
      for an element without a single text child. *)

From stdpp Require Import base option list sorting gmap strings.
From Stdlib Require Import ZArith Lia Ascii.
From Stdlib Require String.

Local Open Scope Z_scope.

(** ** Exceptions *)

Inductive error : Type :=
  | KeyError (key : string)
  | ValueError (what : string)
  | IndexError.

Inductive result (A : Type) : Type :=
  | Ok (a : A)
  | Err (e : error).
Arguments Ok {A} a.
Arguments Err {A} e.

#[global] Instance result_ret : MRet result := fun _ a => Ok a.
#[global] Instance result_bind : MBind result := fun _ _ f r =>
  match r with
  | Ok a => f a
  | Err e => Err e
  end.

Definition is_ok {A} (r : result A) : bool :=
  match r with Ok _ => true | Err _ => false end.

(** [for x in xs: acc = body(acc, x)], stopping at the first exception. *)
Fixpoint for_each {A S : Type} (body : S -> A -> result S) (xs : list A) (s : S)
  : result S :=
  match xs with
  | [] => Ok s
  | x :: xs' => s' ← body s x; for_each body xs' s'
  end.

(** ** Python string primitives *)

Module Py.

Definition ord (c : ascii) : N := N_of_ascii c.

Definition in_range (lo hi : N) (c : ascii) : bool :=
  ((lo <=? ord c) && (ord c <=? hi))%N.

(** [str.isspace] on one character, for code points below 256: TAB..CR,
    FS..US, space, NEL and the no-break space. The regex class [\s] of a
    [str] pattern is the same set. *)
Definition isspace (c : ascii) : bool :=
  in_range 9 13 c || in_range 28 32 c || (ord c =? 133)%N || (ord c =? 160)%N.

Definition isdigit (c : ascii) : bool := in_range 48 57 c.

(** the regex class [[a-zA-Z]] *)
Definition isletter (c : ascii) : bool := in_range 65 90 c || in_range 97 122 c.

(** the regex class [[A-z\s]]: the code points from 'A' to 'z', which
    besides the letters holds the six characters between 'Z' and 'a'. *)
Definition in_label_class (c : ascii) : bool := in_range 65 122 c || isspace c.

Definition nbsp : ascii := ascii_of_N 160.

Fixpoint lstrip_by (p : ascii -> bool) (s : string) : string :=
  match s with
  | EmptyString => EmptyString
  | String c r => if p c then lstrip_by p r else s
  end.

Fixpoint rstrip_by (p : ascii -> bool) (s : string) : string :=
  match s with
  | EmptyString => EmptyString
  | String c r =>
      match rstrip_by p r with
      | EmptyString => if p c then EmptyString else String c EmptyString
      | r' => String c r'
      end
  end.

Definition strip_by (p : ascii -> bool) (s : string) : string :=
  rstrip_by p (lstrip_by p s).

(** [s.strip()] *)
Definition strip (s : string) : string := strip_by isspace s.

(** [s.replace(old, new)] for a non-empty [old]: leftmost occurrences,
    not overlapping. [skip] counts the characters of a matched [old]
    still to pass over. *)
Fixpoint replace_from (old new : string) (skip : nat) (s : string) : string :=
  match s with
  | EmptyString => EmptyString
  | String c r =>
      match skip with
      | S k => replace_from old new k r
      | O =>
          if String.prefix old s
          then new +:+ replace_from old new (String.length old - 1) r
          else String c (replace_from old new 0 r)
      end
  end.

Definition replace (old new s : string) : string := replace_from old new 0 s.

(** the first piece grows by one character *)
Definition push_char (c : ascii) (pieces : list string) : list string :=
  match pieces with
  | hd :: tl => String c hd :: tl
  | [] => [String c EmptyString]
  end.

(** [s.split(sep)] for a non-empty [sep]; never the empty list. *)
Fixpoint split_from (sep : string) (skip : nat) (s : string) : list string :=
  match s with
  | EmptyString => [EmptyString]
  | String c r =>
      match skip with
      | S k => split_from sep k r
      | O =>
          if String.prefix sep s
          then EmptyString :: split_from sep (String.length sep - 1) r
          else push_char c (split_from sep 0 r)
      end
  end.

Definition split (sep s : string) : list string := split_from sep 0 s.

Definition starts_with (p : ascii -> bool) (s : string) : bool :=
  match s with
  | EmptyString => false
  | String c _ => p c
  end.

Definition is_char (a c : ascii) : bool := (ord a =? ord c)%N.

(** [re.split(r'\|+', s)]: cut at every maximal run of pipes. *)
Fixpoint re_split_pipes (s : string) : list string :=
  match s with
  | EmptyString => [EmptyString]
  | String c r =>
      if is_char "|" c
      then if starts_with (is_char "|") r
           then re_split_pipes r
           else EmptyString :: re_split_pipes r
      else push_char c (re_split_pipes r)
  end.

(** [re.sub(r' +', ' ', s)]: every run of spaces becomes one space. *)
Fixpoint collapse_spaces (s : string) : string :=
  match s with
  | EmptyString => EmptyString
  | String c r =>
      if is_char " " c && starts_with (is_char " ") r
      then collapse_spaces r
      else String c (collapse_spaces r)
  end.

(** [re.sub(r' +', '', s)]: every space goes. *)
Fixpoint remove_spaces (s : string) : string :=
  match s with
  | EmptyString => EmptyString
  | String c r =>
      if is_char " " c then remove_spaces r else String c (remove_spaces r)
  end.

Fixpoint any_char (p : ascii -> bool) (s : string) : bool :=
  match s with
  | EmptyString => false
  | String c r => p c || any_char p r
  end.

Fixpoint all_chars (p : ascii -> bool) (s : string) : bool :=
  match s with
  | EmptyString => true
  | String c r => p c && all_chars p r
  end.

(** [re.search("[a-zA-Z]", s) is not None] *)
Definition has_letter (s : string) : bool := any_char isletter s.

(** [re.search(r'--+', s) is not None]: two dashes in a row somewhere. *)
Fixpoint has_dash_run (s : string) : bool :=
  match s with
  | EmptyString => false
  | String c r =>
      (is_char "-" c && starts_with (is_char "-") r) || has_dash_run r
  end.

(** [re.match(r'[A-z\s]+:(?![0-9])', s) is not None]. The class excludes
    the colon, so the run of class characters ends at the first colon of
    [s]; [seen] records that the run is not empty. *)
Fixpoint label_from (seen : bool) (s : string) : bool :=
  match s with
  | EmptyString => false
  | String c r =>
      if is_char ":" c then seen && negb (starts_with isdigit r)
      else if in_label_class c then label_from true r
      else false
  end.

Definition re_match_label (s : string) : bool := label_from false s.

Definition digit_value (c : ascii) : Z := Z.of_N (ord c) - 48.

(** the digits of an [int] literal: groups of digits, one underscore
    allowed between two digits. *)
Fixpoint int_digits (acc : Z) (after_digit : bool) (s : string) : option Z :=
  match s with
  | EmptyString => if after_digit then Some acc else None
  | String c r =>
      if is_char "_" c
      then if after_digit then int_digits acc false r else None
      else if isdigit c then int_digits (10 * acc + digit_value c) true r
      else None
  end.

(** the whitespace [int] passes over at both ends: that of [isspace]
    without the four separators FS..US *)
Definition int_space (c : ascii) : bool :=
  in_range 9 13 c || (ord c =? 32)%N || (ord c =? 133)%N || (ord c =? 160)%N.

(** [int(s)]: surrounding whitespace is ignored, one sign is allowed. *)
Definition int (s : string) : result Z :=
  let body :=
    match strip_by int_space s with
    | String c r =>
        if is_char "+" c then int_digits 0 false r
        else if is_char "-" c then Z.opp <$> int_digits 0 false r
        else int_digits 0 false (String c r)
    | EmptyString => None
    end in
  match body with
  | Some z => Ok z
  | None => Err (ValueError "invalid literal for int()")
  end.

(** [" ".join(parts)] *)
Fixpoint join_space (parts : list string) : string :=
  match parts with
  | [] => EmptyString
  | [p] => p
  | p :: rest => p +:+ " " +:+ join_space rest
  end.

End Py.

(** ** Style Decoder *)

(** [d[k]] on a dictionary with string keys *)
Definition getitem {V} (d : gmap string V) (k : string) : result V :=
  match d !! k with
  | Some v => Ok v
  | None => Err (KeyError k)
  end.

Definition css_to_dict_step (out_dict : gmap string string) (i : string)
  : result (gmap string string) :=
  let elet := Py.split ":" i in
  if decide (elet = [EmptyString]) then Ok out_dict
  else match elet with
       | k :: v :: _ => Ok (<[k := v]> out_dict)
       | _ => Err IndexError
       end.

Definition css_to_dict (css_str : string) : result (gmap string string) :=
  let css_list := Py.split "; " css_str in
  for_each css_to_dict_step css_list ∅.

Definition get_coordinates (css_dict : gmap string string) : result (Z * Z) :=
  top ← getitem css_dict "top";
  i_coord ← Py.int (Py.replace "px" "" top);
  left ← getitem css_dict "left";
  j_coord ← Py.int (Py.replace "px" "" left);
  Ok (i_coord, j_coord).

Definition get_index (css_str : string) : result (Z * Z) :=
  css_to_dict css_str ≫= get_coordinates.

(** ** [datetime.strptime(s, "%I:%M %p %a %b %d, %Y")]

    A library function: what follows is its behaviour for the one format
    the program passes. The format becomes a regular expression whose
    directives are ordered alternatives, a blank of the format matches
    one or more whitespace characters, letters compare without case, and
    the first match in the order of the alternatives must consume the
    whole input. A parser returns its matches in that order. *)

Record datetime : Type := mk_datetime
  { dt_year : Z; dt_month : Z; dt_day : Z; dt_hour : Z; dt_minute : Z }.

Module Strptime.

Definition parser (A : Type) : Type := string -> list (A * string).

Definition digit : parser Z := fun s =>
  match s with
  | String c r => if Py.isdigit c then [(Py.digit_value c, r)] else []
  | EmptyString => []
  end.

Definition digit_in (lo hi : Z) : parser Z := fun s =>
  '(d, r) ← digit s;
  if (lo <=? d) && (d <=? hi) then [(d, r)] else [].

Definition two_digits (lo1 hi1 lo2 hi2 : Z) : parser Z := fun s =>
  '(a, r) ← digit_in lo1 hi1 s;
  '(b, r') ← digit_in lo2 hi2 r;
  [(10 * a + b, r')].

Definition literal (a : ascii) : parser unit := fun s =>
  match s with
  | String c r => if Py.is_char a c then [(tt, r)] else []
  | EmptyString => []
  end.

(** [\s+], longest run first *)
Fixpoint spaces1 (s : string) : list (unit * string) :=
  match s with
  | String c r => if Py.isspace c then spaces1 r ++ [(tt, r)] else []
  | EmptyString => []
  end.

Definition lower (c : ascii) : ascii :=
  if Py.in_range 65 90 c then ascii_of_N (Py.ord c + 32) else c.

(** a lower-case word, matched without case *)
Fixpoint word (w : string) : parser unit := fun s =>
  match w with
  | EmptyString => [(tt, s)]
  | String a w' =>
      match s with
      | String c r => if Py.is_char a (lower c) then word w' r else []
      | EmptyString => []
      end
  end.

(** the first name of [names] that matches, with its 1-based position *)
Fixpoint one_of (names : list string) (pos : Z) : parser Z := fun s =>
  match names with
  | [] => []
  | w :: rest =>
      ((fun '(_, r) => (pos, r)) <$> word w s) ++ one_of rest (pos + 1) s
  end.

(** [%I]: [1[0-2]|0[1-9]|[1-9]] *)
Definition hour12 : parser Z := fun s =>
  two_digits 1 1 0 2 s ++ two_digits 0 0 1 9 s ++ digit_in 1 9 s.

(** [%M]: [[0-5]\d|\d] *)
Definition minute : parser Z := fun s =>
  two_digits 0 5 0 9 s ++ digit_in 0 9 s.

(** [%d]: [3[0-1]|[1-2]\d|0[1-9]|[1-9]| [1-9]] *)
Definition day_of_month : parser Z := fun s =>
  two_digits 3 3 0 1 s ++ two_digits 1 2 0 9 s ++ two_digits 0 0 1 9 s
  ++ digit_in 1 9 s ++ ('(_, r) ← literal " " s; digit_in 1 9 r).

(** [%Y]: [\d\d\d\d] *)
Definition year4 : parser Z := fun s =>
  '(a, r) ← two_digits 0 9 0 9 s;
  '(b, r') ← two_digits 0 9 0 9 r;
  [(100 * a + b, r')].

Definition am_pm : list string := ["am"; "pm"].
Definition weekdays : list string :=
  ["mon"; "tue"; "wed"; "thu"; "fri"; "sat"; "sun"].
Definition months : list string :=
  ["jan"; "feb"; "mar"; "apr"; "may"; "jun";
   "jul"; "aug"; "sep"; "oct"; "nov"; "dec"].

Definition is_leap (y : Z) : bool :=
  ((y mod 4 =? 0) && negb (y mod 100 =? 0)) || (y mod 400 =? 0).

Definition days_in_month (y m : Z) : Z :=
  if m =? 2 then (if is_leap y then 29 else 28)
  else if (m =? 4) || (m =? 6) || (m =? 9) || (m =? 11) then 30
  else 31.

(** the 12-hour clock of [%I] with [%p] *)
Definition hour24 (h p : Z) : Z :=
  if p =? 1 then (if h =? 12 then 0 else h)
  else (if h =? 12 then 12 else h + 12).

Definition fields : parser datetime := fun s =>
  '(h, s) ← hour12 s;
  '(_, s) ← literal ":" s;
  '(mi, s) ← minute s;
  '(_, s) ← spaces1 s;
  '(p, s) ← one_of am_pm 1 s;
  '(_, s) ← spaces1 s;
  '(_, s) ← one_of weekdays 1 s;
  '(_, s) ← spaces1 s;
  '(mo, s) ← one_of months 1 s;
  '(_, s) ← spaces1 s;
  '(d, s) ← day_of_month s;
  '(_, s) ← literal "," s;
  '(_, s) ← spaces1 s;
  '(y, s) ← year4 s;
  [(mk_datetime y mo d (hour24 h p) mi, s)].

Definition strptime (s : string) : result datetime :=
  match fields s with
  | [] => Err (ValueError "time data does not match format")
  | (d, rest) :: _ =>
      if negb (String.eqb rest EmptyString)
      then Err (ValueError "unconverted data remains")
      else if negb (1 <=? dt_year d)
      then Err (ValueError "year is out of range")
      else if negb (dt_day d <=? days_in_month (dt_year d) (dt_month d))
      then Err (ValueError "day is out of range for month")
      else Ok d
  end.

End Strptime.

(** ** The input: the [<label>] elements of the document *)

Record label : Type := mk_label
  { label_style : string;            (* i["style"] *)
    label_string : option string }.  (* i.string *)

(** a data point [[(row, column), "Data"]] *)
Definition data_point : Type := (Z * Z) * string.

Definition row_of (p : data_point) : Z := p.1.1.
Definition col_of (p : data_point) : Z := p.1.2.

(** ** Fragment Classifier: the loop over [Label_elets] *)

Definition bold_font : string := "bold 12px verdana".

Definition title_tokens (s : string) : list string :=
  Py.re_split_pipes (Py.replace (String Py.nbsp "") "|" (Py.strip s)).

Definition cell_text (s : string) : string :=
  Py.replace (String Py.nbsp "") " " (Py.strip s).

(** one turn of the loop; the state is [(indexed_data, _col_titles)] *)
Definition classify_step (st : list data_point * list (list string)) (i : label)
  : result (list data_point * list (list string)) :=
  let '(indexed_data, _col_titles) := st in
  match label_string i with
  | None => Ok st
  | Some s =>
      css ← css_to_dict (label_style i);
      font ← getitem css "font";
      let _col_titles' :=
        if decide (font = bold_font)
        then _col_titles ++ [title_tokens s]
        else _col_titles in
      idx ← get_index (label_style i);
      Ok (indexed_data ++ [(idx, cell_text s)], _col_titles')
  end.

Definition classify (Label_elets : list label)
  : result (list data_point * list (list string)) :=
  for_each classify_step Label_elets ([], []).

(** ** Header Reconstructor *)

(** [max(len(x) for x in _col_titles)] *)
Definition max_title_list_length (_col_titles : list (list string)) : result nat :=
  match _col_titles with
  | [] => Err (ValueError "max() arg is an empty sequence")
  | _ => Ok (foldr Nat.max 0%nat (length <$> _col_titles))
  end.

(** the loop that fills [col_titles]; it leaves at the third full list *)
Fixpoint select_titles (max_len : nat) (_col_titles col_titles : list (list string))
  : list (list string) :=
  match _col_titles with
  | [] => col_titles
  | i :: rest =>
      if decide (i = [EmptyString]) then select_titles max_len rest col_titles
      else if (length i <? max_len)%nat then select_titles max_len rest col_titles
      else if (length col_titles =? 2)%nat then col_titles
      else select_titles max_len rest (col_titles ++ [i])
  end.

(** [zip] over the unpacked [col_titles]: the tuples of the k-th elements, as long as every
    list has one; no tuple at all for no list. *)
Fixpoint zip_star {A} (lists : list (list A)) : list (list A) :=
  match lists with
  | [] => []
  | [l] => (fun x => [x]) <$> l
  | l :: rest => zip_with cons l (zip_star rest)
  end.

Definition final_col_titles (_col_titles : list (list string)) : result (list string) :=
  max_len ← max_title_list_length _col_titles;
  let col_titles := select_titles max_len _col_titles [] in
  Ok ("TIME" :: (Py.join_space <$> zip_star col_titles)).

(** ** Grid Assembler *)

Definition row_indices_set (indexed_data : list data_point) : gset Z :=
  list_to_set (row_of <$> indexed_data).

(** [list(row_indices_set)] followed by [.sort()] *)
Definition row_indices_list (indexed_data : list data_point) : list Z :=
  merge_sort Z.le (elements (row_indices_set indexed_data)).

Definition matrix_dict (indexed_data : list data_point) : list (Z * list data_point) :=
  (fun i => (i, filter (fun j => row_of j = i) indexed_data))
    <$> row_indices_list indexed_data.

(** [list.sort(key=lambda x: x[0][1])] keeps the order of equal keys;
    insertion from the right is such a sort, and a stable sort has one
    result. *)
Fixpoint insert_by_col (x : data_point) (l : list data_point) : list data_point :=
  match l with
  | [] => [x]
  | y :: l' => if col_of x <=? col_of y then x :: l else y :: insert_by_col x l'
  end.

Definition sort_by_col (l : list data_point) : list data_point :=
  foldr insert_by_col [] l.

Definition sorted_rows_dict (indexed_data : list data_point) : list (Z * list string) :=
  (fun '(i, points) => (i, snd <$> sort_by_col points)) <$> matrix_dict indexed_data.

(** ** Metadata Extractor *)

(** [d[k] = v] on a dictionary that keeps insertion order: a key already
    there keeps its place. *)
Fixpoint setitem {V} (d : list (string * V)) (k : string) (v : V) : list (string * V) :=
  match d with
  | [] => [(k, v)]
  | (k', v') :: rest =>
      if decide (k' = k) then (k', v) :: rest else (k', v') :: setitem rest k v
  end.

Fixpoint lookup_key {V} (d : list (string * V)) (k : string) : result V :=
  match d with
  | [] => Err (KeyError k)
  | (k', v) :: rest => if decide (k' = k) then Ok v else lookup_key rest k
  end.

(** [val[n]] *)
Definition list_item {A} (val : list A) (n : nat) : result A :=
  match val !! n with
  | Some x => Ok x
  | None => Err IndexError
  end.

(** [val.index(i)], for an [i] taken from [val] *)
Fixpoint list_index (i : string) (val : list string) : nat :=
  match val with
  | [] => 0
  | x :: rest => if decide (x = i) then 0 else S (list_index i rest)
  end.

(** [i[:-1]] *)
Fixpoint but_last (s : string) : string :=
  match s with
  | EmptyString => EmptyString
  | String c EmptyString => EmptyString
  | String c r => String c (but_last r)
  end.

(** the inner loop [for i in val] of a row with several cells *)
Definition metadata_cell (val : list string) (metadata_dict : list (string * string))
  (i : string) : result (list (string * string)) :=
  if Py.re_match_label i then
    v ← list_item val (list_index i val + 1);
    Ok (setitem metadata_dict (Py.collapse_spaces (but_last i)) (Py.collapse_spaces v))
  else Ok metadata_dict.

(** one turn of the loop over [sorted_rows_dict.items()] *)
Definition metadata_row (metadata_dict : list (string * string))
  (item : Z * list string) : result (list (string * string)) :=
  let val := item.2 in
  if (length val =? 1)%nat then
    v0 ← list_item val 0;
    if Py.re_match_label v0 then
      let datum := Py.split ":" v0 in
      k ← list_item datum 0;
      v ← list_item datum 1;
      Ok (setitem metadata_dict (Py.strip k) (Py.strip v))
    else Ok metadata_dict
  else for_each (metadata_cell val) val metadata_dict.

Definition extract_metadata (rows : list (Z * list string))
  : result (list (string * string)) :=
  for_each metadata_row rows [].

(** ** Table Normalizer: the data frame *)

(** a cell of the frame: a string of the grid, the missing value that
    pads a short row or replaces a placeholder, or the parsed timestamp *)
Inductive cell : Type :=
  | CStr (s : string)
  | CMissing
  | CDate (d : datetime).

Record table : Type := mk_table
  { tb_columns : list string;
    tb_rows : list (list cell) }.

(** the frame while its rows still carry their row coordinate as index *)
Definition frame : Type := list (Z * list cell).

Definition frame_width (rows : list (Z * list string)) : nat :=
  foldr Nat.max 0%nat ((fun item => length item.2) <$> rows).

Definition pad_row (width : nat) (val : list string) : list cell :=
  (CStr <$> val) ++ replicate (width - length val) CMissing.

(** [pd.DataFrame.from_dict(sorted_rows_dict, orient='index')] *)
Definition from_dict (rows : list (Z * list string)) : frame :=
  (fun item => (item.1, pad_row (frame_width rows) item.2)) <$> rows.

Definition first_cell (r : list cell) : cell :=
  match r with
  | c :: _ => c
  | [] => CMissing
  end.

Definition on_first_cell (f : cell -> cell) (r : list cell) : list cell :=
  match r with
  | c :: rest => f c :: rest
  | [] => []
  end.

(** [~df[0].str.contains("[a-zA-Z]").fillna(False)] *)
Definition no_letter (c : cell) : bool :=
  match c with
  | CStr s => negb (Py.has_letter s)
  | _ => true
  end.

(** [replace('', np.nan)] *)
Definition blank_to_missing (c : cell) : cell :=
  match c with
  | CStr s => if decide (s = "") then CMissing else c
  | _ => c
  end.

(** [replace(r'--+', np.nan, regex=True)]: with a replacement that is
    not a string, a cell where the pattern is found anywhere becomes the
    replacement as a whole. *)
Definition dashes_to_missing (c : cell) : cell :=
  match c with
  | CStr s => if Py.has_dash_run s then CMissing else c
  | _ => c
  end.

Definition notna (c : cell) : bool :=
  match c with
  | CMissing => false
  | _ => true
  end.

(** [replace(r' +', '', regex=True)] *)
Definition drop_spaces (c : cell) : cell :=
  match c with
  | CStr s => CStr (Py.remove_spaces s)
  | _ => c
  end.

(** lines 181 to 186: [df1] before its columns are named; the
    replacements made in place on [df1[0]] change [df1] *)
Definition clean_rows (df : frame) : frame :=
  let df1 := filter (fun r => no_letter (first_cell r.2) = true) df in
  let df1 := (fun r => (r.1, on_first_cell blank_to_missing r.2)) <$> df1 in
  let df1 := (fun r => (r.1, on_first_cell dashes_to_missing r.2)) <$> df1 in
  let df1 := filter (fun r => notna (first_cell r.2) = true) df1 in
  (fun r => (r.1, on_first_cell drop_spaces r.2)) <$> df1.

(** [df1.insert(0, k, [v for _ in range(len(df1.index))])] *)
Definition insert_column (t : table) (kv : string * cell) : result table :=
  if decide (kv.1 ∈ tb_columns t)
  then Err (ValueError "cannot insert column, already exists")
  else Ok (mk_table (kv.1 :: tb_columns t) (cons kv.2 <$> tb_rows t)).

(** lines 177 to 192 *)
Definition normalize (rows : list (Z * list string)) (titles : list string)
  (metadata_dict : list (string * cell)) : result table :=
  let df := from_dict rows in
  if (frame_width rows =? 0)%nat then Err (KeyError "0")
  else
    let df1 := clean_rows df in
    if negb (length titles =? frame_width rows)%nat
    then Err (ValueError "Length mismatch")
    else for_each insert_column metadata_dict (mk_table titles (snd <$> df1)).

(** ** The run *)

(** lines 171 to 173 *)
Definition fix_timestamp (metadata_dict : list (string * string))
  : result (list (string * cell)) :=
  _timestamp ← lookup_key metadata_dict "Date";
  fixed_timestamp ← Strptime.strptime _timestamp;
  Ok (setitem (prod_map id CStr <$> metadata_dict) "Date" (CDate fixed_timestamp)).

(** what [main] computes before it exports: the column names, the
    metadata record and the table *)
Record outcome : Type := mk_outcome
  { out_titles : list string;
    out_grid : list (Z * list string);
    out_metadata : list (string * cell);
    out_table : table }.

Definition transform (Label_elets : list label) : result outcome :=
  '(indexed_data, _col_titles) ← classify Label_elets;
  titles ← final_col_titles _col_titles;
  let rows := sorted_rows_dict indexed_data in
  metadata_dict ← extract_metadata rows;
  metadata_dict ← fix_timestamp metadata_dict;
  df1 ← normalize rows titles metadata_dict;
  Ok (mk_outcome titles rows metadata_dict df1).

(** what the run leaves behind *)
Inductive event : Type :=
  | WriteCsv (path : string) (t : table)
  | Print (line : string).

(** lines 199 to 213. The write and the prints are taken to succeed:
    [TARGET_FILE] is a bare file name (a path with a directory part
    that does not exist would make [to_csv] raise), and the import of
    the database library and the connection are not modelled. *)
Definition export (TARGET_FILE : string) (useSQL : bool) (df1 : table) : list event :=
  if useSQL then
    (if decide ("Skill" ∈ tb_columns df1)
     then [Print "query to Skill table in mssql"] else [])
    ++ (if decide ("VDN" ∈ tb_columns df1)
        then [Print "query to VDN table in mssql"] else [])
    ++ [Print "imagine a SQL transaction is happening here. It will look like df1.to_sql(name='target_table', con=connection)"]
  else [WriteCsv ("phone_data_" +:+ TARGET_FILE +:+ ".csv") df1].

Definition main (TARGET_FILE : string) (useSQL : bool) (Label_elets : list label)
  : result unit * list event :=
  match transform Label_elets with
  | Ok o => (Ok tt, export TARGET_FILE useSQL (out_table o))
  | Err e => (Err e, [])
  end.

(** * Notions the statements use *)

(** ** Styles that cannot place a fragment *)

Definition numeric_px (css : gmap string string) (k : string) : bool :=
  match css !! k with
  | Some v => is_ok (Py.int (Py.replace "px" "" v))
  | None => false
  end.

(** the decoded style has no [top], or no [left], that reads as an
    integer once the unit suffix is taken off *)
Definition lacks_numeric_coordinate (css : gmap string string) : bool :=
  negb (numeric_px css "top" && numeric_px css "left").

(** the declaration cannot be decoded, or it decodes to a style that
    lacks a numeric coordinate *)
Definition malformed_style (css_str : string) : bool :=
  match css_to_dict css_str with
  | Ok css => lacks_numeric_coordinate css
  | Err _ => true
  end.

(** ** Rows the Metadata Extractor matches

    The test of the loop over [sorted_rows_dict.items()]: the only cell
    of a one-cell row matches the label pattern, or some cell of a
    longer row does. *)
Definition is_metadata_row (val : list string) : bool :=
  if (length val =? 1)%nat then forallb Py.re_match_label val
  else existsb Py.re_match_label val.

(** the keys under which the loop records a row: for a row of one cell
    that matches, the trimmed first piece of the cell split at its
    colons; for a longer row, every matching cell without its last
    character and with its runs of blanks made one *)
Definition row_labels (val : list string) : list string :=
  if (length val =? 1)%nat then
    match val with
    | v0 :: _ =>
        if Py.re_match_label v0
        then match Py.split ":" v0 with
             | k :: _ => [Py.strip k]
             | [] => []
             end
        else []
    | [] => []
    end
  else (fun i => Py.collapse_spaces (but_last i))
         <$> filter (fun i => Py.re_match_label i = true) val.

(** ** First cells the Table Normalizer rejects *)

(** two or more characters, each one a dash *)
Definition all_dashes (s : string) : bool :=
  (2 <=? String.length s)%nat && Py.all_chars (Py.is_char "-") s.

(** the first cell is empty, holds a run of dashes, or holds a letter *)
Definition rejected_first_cell (s : string) : bool :=
  bool_decide (s = "") || Py.has_dash_run s || Py.has_letter s.

(** the three passes over the first column, as one function *)
Definition clean_first (r : list cell) : list cell :=
  on_first_cell drop_spaces (on_first_cell dashes_to_missing (on_first_cell blank_to_missing r)).

Definition survives (r : list cell) : bool :=
  no_letter (first_cell r)
  && notna (first_cell (on_first_cell dashes_to_missing (on_first_cell blank_to_missing r))).

(** [df1] after line 186: the rows that stay, still under their row
    coordinate *)
Definition table_body (rows : list (Z * list string)) : frame :=
  clean_rows (from_dict rows).

(** ** Fragments by the words of the specification *)

Definition header_styled (i : label) : bool :=
  match css_to_dict (label_style i) ≫= (fun css => getitem css "font") with
  | Ok font => bool_decide (font = bold_font)
  | Err _ => false
  end.

Definition text_present (i : label) : bool :=
  match label_string i with Some _ => true | None => false end.

Definition text_blank (i : label) : bool :=
  match label_string i with
  | Some s => bool_decide (Py.strip s = "")
  | None => true
  end.

(** a data fragment in the sense of the specification: not header-styled
    and with text that is not empty after trimming *)
Definition spec_data_fragment (i : label) : bool :=
  negb (header_styled i) && negb (text_blank i).

Definition coordinate_of (i : label) : option (Z * Z) :=
  match get_index (label_style i) with
  | Ok c => Some c
  | Err _ => None
  end.

(** the row coordinates of the fragments that satisfy [keep] *)
Definition row_coordinates (keep : label -> bool) (Label_elets : list label) : gset Z :=
  list_to_set (omap (fun i => if keep i then fst <$> coordinate_of i else None) Label_elets).

(** ** The header by the words of the specification *)

(** a token list survives unless it is empty or shorter than the longest *)
Definition spec_survives (max_len : nat) (tokens : list string) : bool :=
  negb (bool_decide (tokens = [""])) && negb (length tokens <? max_len)%nat.

(** the first two survivors, zipped position by position, each pair
    joined by one space; one survivor alone gives its own tokens *)
Definition spec_column_names (survivors : list (list string)) : list string :=
  match survivors with
  | [a; b] => zip_with (fun x y => x +:+ " " +:+ y) a b
  | [a] => a
  | _ => []
  end.

Definition spec_final_col_titles (_col_titles : list (list string)) : list string :=
  let max_len := foldr Nat.max 0%nat (length <$> _col_titles) in
  "TIME" :: spec_column_names (take 2 (filter (fun t => spec_survives max_len t = true) _col_titles)).

(** ** Strings and rows by what they hold *)

(** the character [a] does not occur in [s] *)
Definition free_of (a : ascii) (s : string) : bool :=
  negb (Py.any_char (Py.is_char a) s).

(** some cell of the row matches the label pattern *)
Definition has_label_cell (val : list string) : bool :=
  existsb Py.re_match_label val.

(** the order in which a row is sorted *)
Definition col_le (p q : data_point) : Prop := col_of p <= col_of q.

(** ** What one element gives the classifier *)

(** the data point of an element with text *)
Definition point_of (i : label) : option data_point :=
  s ← label_string i; c ← coordinate_of i; Some (c, cell_text s).

(** the token list of a header-styled element with text *)
Definition tokens_of (i : label) : option (list string) :=
  s ← label_string i; if header_styled i then Some (title_tokens s) else None.

(** ** Sample documents *)

Definition header_label (top left text : string) : label :=
  mk_label ("top:" +:+ top +:+ "px; left:" +:+ left +:+ "px; font:bold 12px verdana")
           (Some text).

Definition data_label (top left text : string) : label :=
  mk_label ("top:" +:+ top +:+ "px; left:" +:+ left +:+ "px; font:12px verdana")
           (Some text).

(** a header wrapped over two lines, the report date, two data rows *)
Definition sample_report : list label :=
  [ header_label "0" "50" "Agent"; header_label "5" "50" "Name";
    data_label "20" "0" "Date:"; data_label "20" "50" "10:00 AM Mon Jan 01, 2024";
    data_label "30" "0" "09:15"; data_label "30" "50" "John";
    data_label "40" "50" "Jane"; data_label "40" "0" "09:16" ].

Definition sample_date : datetime := mk_datetime 2024 1 1 10 0.

(** the table [main] builds from [sample_report] *)
Definition sample_table : table :=
  mk_table ["Date"; "TIME"; "Agent Name"]
           [ [CDate sample_date; CStr "09:15"; CStr "John"];
             [CDate sample_date; CStr "09:16"; CStr "Jane"] ].

(** two fragments on one grid cell, row 30 and column 0 *)
Definition shared_cell_report : list label :=
  [ header_label "0" "50" "Agent"; header_label "5" "50" "Name";
    data_label "20" "0" "Date:"; data_label "20" "50" "10:00 AM Mon Jan 01, 2024";
    data_label "30" "0" "09:15"; data_label "30" "0" "09:16" ].

(** a data row that carries a label and its value after the time *)
Definition skill_report : list label :=
  [ header_label "0" "50" "Agent|Skill"; header_label "5" "50" "Name|Group";
    data_label "20" "0" "Date:"; data_label "20" "50" "10:00 AM Mon Jan 01, 2024";
    data_label "30" "0" "09:15"; data_label "30" "50" "Skill:";
    data_label "30" "90" "Sales" ].

(** the report date as one fragment *)
Definition one_cell_date_report : list label :=
  [ header_label "0" "50" "Agent"; header_label "5" "50" "Name";
    data_label "20" "0" "Date: 10:00 AM Mon Jan 01, 2024";
    data_label "30" "0" "09:15"; data_label "30" "50" "John" ].

(** a first cell whose dashes are set apart by a space *)
Definition spaced_dashes_report : list label :=
  [ header_label "0" "50" "Agent"; header_label "5" "50" "Name";
    data_label "20" "0" "Date:"; data_label "20" "50" "10:00 AM Mon Jan 01, 2024";
    data_label "30" "0" "- -"; data_label "30" "50" "John" ].

(** a row that ends in a label, and one that ends in the repeat of one *)
Definition trailing_label_report : list label :=
  [ header_label "0" "50" "Agent"; header_label "5" "50" "Name";
    data_label "20" "0" "Date:"; data_label "20" "50" "10:00 AM Mon Jan 01, 2024";
    data_label "30" "0" "09:15"; data_label "30" "50" "Skill:" ].

Definition repeated_label_report : list label :=
  [ header_label "0" "50" "Agent"; header_label "5" "50" "Name";
    data_label "20" "0" "Date:"; data_label "20" "50" "10:00 AM Mon Jan 01, 2024";
    data_label "30" "0" "Skill:"; data_label "30" "50" "Skill:" ].

(** a report without a bold element, and one whose date has no font *)
Definition headless_report : list label :=
  [ data_label "20" "0" "Date:"; data_label "20" "50" "10:00 AM Mon Jan 01, 2024";
    data_label "30" "0" "09:15"; data_label "30" "50" "John" ].

Definition fontless_report : list label :=
  [ header_label "0" "50" "Agent"; mk_label "top:20px; left:0px" (Some "Date:");
    data_label "30" "0" "09:15" ].

(** a report with no label cell at all *)
Definition dateless_report : list label :=
  [ header_label "0" "50" "Agent"; header_label "5" "50" "Name";
    data_label "30" "0" "09:15"; data_label "30" "50" "John" ].

(** what [transform] gives for [sample_report] and for [skill_report] *)
Definition sample_outcome : outcome :=
  mk_outcome
    ["TIME"; "Agent Name"]
    [ (0, ["Agent"]); (5, ["Name"]);
      (20, ["Date:"; "10:00 AM Mon Jan 01, 2024"]);
      (30, ["09:15"; "John"]); (40, ["09:16"; "Jane"]) ]
    [("Date", CDate sample_date)]
    sample_table.

Definition skill_outcome : outcome :=
  mk_outcome
    ["TIME"; "Agent Name"; "Skill Group"]
    [ (0, ["Agent|Skill"]); (5, ["Name|Group"]);
      (20, ["Date:"; "10:00 AM Mon Jan 01, 2024"]);
      (30, ["09:15"; "Skill:"; "Sales"]) ]
    [("Date", CDate sample_date); ("Skill", CStr "Sales")]
    (mk_table
       ["Skill"; "Date"; "TIME"; "Agent Name"; "Skill Group"]
       [[CStr "Sales"; CDate sample_date; CStr "09:15"; CStr "Skill:"; CStr "Sales"]]).

(** * Properties *)

(** ** The error monad and its loops *)

(** a step of a computation that is known to end well returned a value *)
Tactic Notation "returns" constr(step) "as" ident(value) :=
  destruct step as [value|]; simpl; [|discriminate].

Lemma bind_Ok {A B} (r : result A) (f : A -> result B) (b : B) :
  r ≫= f = Ok b -> exists a, r = Ok a /\ f a = Ok b.
Proof. destruct r as [a|e]; simpl; [eauto | discriminate]. Qed.

Lemma bind_Ok_l {A B} (a : A) (f : A -> result B) : Ok a ≫= f = f a.
Proof. reflexivity. Qed.

Lemma for_each_app {A S} (body : S -> A -> result S) (xs ys : list A) (s : S) :
  for_each body (xs ++ ys) s = for_each body xs s ≫= for_each body ys.
Proof.
  revert s. induction xs as [|x xs IH]; intros s; simpl; [reflexivity|].
  destruct (body s x) as [s'|e]; simpl; [apply IH | reflexivity].
Qed.

(** a turn that raises in every state ends the loop with an exception *)
Lemma for_each_raises {A S} (body : S -> A -> result S) (xs ys : list A) (x : A) (s : S) :
  (forall s', exists e, body s' x = Err e) ->
  exists e, for_each body (xs ++ x :: ys) s = Err e.
Proof.
  intros Hx. rewrite for_each_app.
  destruct (for_each body xs s) as [s'|e]; simpl; [|eauto].
  destruct (Hx s') as [e ->]. simpl. eauto.
Qed.

(** ** Style Decoder and Fragment Classifier *)

Lemma get_coordinates_lacking (css : gmap string string) :
  lacks_numeric_coordinate css = true -> exists e, get_coordinates css = Err e.
Proof.
  unfold lacks_numeric_coordinate, numeric_px, get_coordinates, getitem.
  destruct (css !! "top") as [t|]; simpl; [|eauto].
  destruct (Py.int (Py.replace "px" "" t)) as [i|e]; simpl; [|eauto].
  destruct (css !! "left") as [l|]; simpl; [|eauto].
  destruct (Py.int (Py.replace "px" "" l)) as [j|e]; simpl; [|eauto].
  discriminate.
Qed.

Lemma get_index_malformed (css_str : string) :
  malformed_style css_str = true -> exists e, get_index css_str = Err e.
Proof.
  unfold malformed_style, get_index.
  destruct (css_to_dict css_str) as [css|e]; simpl; [|eauto].
  apply get_coordinates_lacking.
Qed.

Lemma classify_step_malformed st (i : label) (s : string) :
  label_string i = Some s -> malformed_style (label_style i) = true ->
  exists e, classify_step st i = Err e.
Proof.
  intros Hs Hbad. destruct st as [d t]. unfold classify_step. rewrite Hs.
  destruct (get_index_malformed _ Hbad) as [e He].
  destruct (css_to_dict (label_style i)) as [css|e1]; simpl; [|eauto].
  destruct (getitem css "font") as [font|e2]; simpl; [|eauto].
  rewrite He. simpl. eauto.
Qed.

Lemma classify_step_absent st (i : label) :
  label_string i = None -> classify_step st i = Ok st.
Proof. intros Hs. destruct st as [d t]. unfold classify_step. now rewrite Hs. Qed.

Lemma strip_empty_cell_text (s : string) : Py.strip s = "" -> cell_text s = "".
Proof. unfold cell_text. now intros ->. Qed.

Lemma strip_empty_title_tokens (s : string) : Py.strip s = "" -> title_tokens s = [""].
Proof. unfold title_tokens. now intros ->. Qed.

(** C4 (as the code has it). A fragment whose text is absent is
    discarded: the classifier gives the same header list and the same
    data points as for the document without it. A fragment whose text is
    present but empty after trimming is not discarded: it becomes a data
    point with the empty string as its text and, when it is
    header-styled, adds the token list of the empty string to the header
    list. *)
Theorem C4_absent_text_discarded_blank_text_kept :
  (forall (before after : list label) (i : label),
      label_string i = None ->
      classify (before ++ i :: after) = classify (before ++ after)) /\
  (forall (i : label) (s : string) d t d' t',
      label_string i = Some s -> Py.strip s = "" ->
      classify_step (d, t) i = Ok (d', t') ->
      (exists idx, d' = d ++ [(idx, "")]) /\
      (header_styled i = true -> t' = t ++ [[""]])).
Proof.
  split.
  - intros before after i Hi. unfold classify. rewrite !for_each_app.
    destruct (for_each classify_step before ([], [])) as [st|e]; simpl; [|reflexivity].
    now rewrite (classify_step_absent st i Hi).
  - intros i s d t d' t' Hs Hblank. unfold classify_step, header_styled. rewrite Hs.
    rewrite (strip_empty_cell_text s Hblank), (strip_empty_title_tokens s Hblank).
    destruct (css_to_dict (label_style i)) as [css|e]; simpl; [|discriminate].
    destruct (getitem css "font") as [font|e]; simpl; [|discriminate].
    destruct (get_index (label_style i)) as [idx|e]; simpl; [|discriminate].
    intros [= <- <-]. split; [eauto|].
    intros Hh. apply bool_decide_eq_true in Hh. now rewrite decide_True.
Qed.

Lemma C4_witness :
  classify (sample_report ++ mk_label "top:50px; left:0px" None :: [])
  = classify (sample_report ++ []) /\
  ((exists idx, [((0, 0), "")] = [] ++ [(idx, "")]) /\
   (header_styled (header_label "0" "0" " ") = true -> [[""]] = [] ++ [[""]])).
Proof.
  split.
  - apply (proj1 C4_absent_text_discarded_blank_text_kept). reflexivity.
  - apply (proj2 C4_absent_text_discarded_blank_text_kept
             (header_label "0" "0" " ") " " [] []); vm_compute; reflexivity.
Defined.

(** C4, the claim as stated fails: a fragment whose text is one blank is
    neither dropped from the data points nor kept out of the grid; it
    gives the grid a row with one empty cell. *)
Lemma C4_blank_fragment_reaches_grid :
  let i := data_label "0" "0" " " in
  text_blank i = true /\
  classify [i] = Ok ([((0, 0), "")], []) /\
  sorted_rows_dict [((0, 0), "")] = [(0, [""])] /\
  classify [header_label "0" "0" " "] = Ok ([((0, 0), "")], [[""]]).
Proof. vm_compute. repeat split; reflexivity. Qed.

(** C9 (as the code has it). When a fragment with text carries a
    malformed style, the run ends with an exception and leaves nothing
    behind, whatever the export mode. *)
Theorem C9_malformed_style_aborts_without_output
  (TARGET_FILE : string) (useSQL : bool) (before after : list label) (i : label) (s : string) :
  label_string i = Some s ->
  malformed_style (label_style i) = true ->
  exists e, main TARGET_FILE useSQL (before ++ i :: after) = (Err e, []).
Proof.
  intros Hs Hbad.
  destruct (for_each_raises classify_step before after i ([], [])) as [e He].
  { intros st. now apply classify_step_malformed with s. }
  exists e. unfold main, transform, classify. now rewrite He.
Qed.

Lemma C9_witness :
  malformed_style "top: px; left: 10px" = true /\
  exists e, main "report.html" false
              (sample_report ++ mk_label "top: px; left: 10px" (Some "09:17") :: [])
            = (Err e, []).
Proof.
  split; [vm_compute; reflexivity|].
  apply (C9_malformed_style_aborts_without_output "report.html" false sample_report []
           (mk_label "top: px; left: 10px" (Some "09:17")) "09:17");
    vm_compute; reflexivity.
Defined.

(** C9, the claim as stated fails: an element without text is skipped
    before its style is read, so a malformed style on it stops nothing
    and the file is written. *)
Lemma C9_malformed_style_on_textless_element :
  malformed_style "top: px; left: 10px" = true /\
  main "report.html" false (mk_label "top: px; left: 10px" None :: sample_report)
  = (Ok tt, [WriteCsv "phone_data_report.html.csv" sample_table]).
Proof. split; vm_compute; reflexivity. Qed.

(** ** Header Reconstructor *)

Lemma spec_survives_false (m : nat) (i : list string) :
  i = [""] \/ (length i < m)%nat -> spec_survives m i = false.
Proof.
  unfold spec_survives. intros [->|Hlt].
  - now rewrite bool_decide_eq_true_2.
  - apply Nat.ltb_lt in Hlt. rewrite Hlt. apply andb_false_r.
Qed.

Lemma spec_survives_true (m : nat) (i : list string) :
  i <> [""] -> (length i <? m)%nat = false -> spec_survives m i = true.
Proof.
  unfold spec_survives. intros Hne ->. now rewrite bool_decide_eq_false_2.
Qed.

(** the loop with its [break] takes the first two survivors *)
Lemma select_titles_take (m : nat) (xs acc : list (list string)) :
  (length acc <= 2)%nat ->
  select_titles m xs acc
  = take 2 (acc ++ filter (fun t => spec_survives m t = true) xs).
Proof.
  revert acc. induction xs as [|i rest IH]; intros acc Hacc; simpl.
  - rewrite app_nil_r. symmetry. now apply take_ge.
  - destruct (decide (i = [""])) as [Hi|Hi].
    { rewrite filter_cons_False; [now apply IH|].
      rewrite spec_survives_false; [discriminate | now left]. }
    destruct (length i <? m)%nat eqn:Hlen.
    { rewrite filter_cons_False; [now apply IH|].
      rewrite spec_survives_false; [discriminate | right; now apply Nat.ltb_lt]. }
    rewrite filter_cons_True by now apply spec_survives_true.
    destruct (length acc =? 2)%nat eqn:Hfull.
    + apply Nat.eqb_eq in Hfull. rewrite take_app_le by lia.
      symmetry. apply take_ge. lia.
    + apply Nat.eqb_neq in Hfull. rewrite IH.
      * now rewrite <- app_assoc.
      * rewrite length_app. simpl. lia.
Qed.

Lemma zip_with_cons_singletons (a b : list string) :
  Py.join_space <$> zip_with cons a ((fun x => [x]) <$> b)
  = zip_with (fun x y => x +:+ " " +:+ y) a b.
Proof.
  revert b. induction a as [|x a IH]; intros [|y b]; simpl; try reflexivity.
  now rewrite IH.
Qed.

Lemma join_space_singletons (a : list string) :
  Py.join_space <$> ((fun x => [x]) <$> a) = a.
Proof.
  induction a as [|x a IH]; [reflexivity|].
  rewrite !fmap_cons. f_equal. exact IH.
Qed.

Lemma column_names_of_survivors (survivors : list (list string)) :
  (length survivors <= 2)%nat ->
  Py.join_space <$> zip_star survivors = spec_column_names survivors.
Proof.
  destruct survivors as [|a [|b [|c rest]]]; simpl; intros Hlen.
  - reflexivity.
  - apply join_space_singletons.
  - apply zip_with_cons_singletons.
  - lia.
Qed.

(** C6. For a header list that is not empty, the column names the code
    builds are those of the specification: drop the token lists that are
    empty or shorter than the longest, take the first two that remain,
    zip them by position, join each pair with one space, and put "TIME"
    in front. *)
Theorem C6_final_col_titles_as_specified (_col_titles : list (list string)) :
  _col_titles <> [] ->
  final_col_titles _col_titles = Ok (spec_final_col_titles _col_titles).
Proof.
  intros Hne. unfold final_col_titles, spec_final_col_titles.
  assert (Hmax : max_title_list_length _col_titles
                 = Ok (foldr Nat.max 0%nat (length <$> _col_titles))).
  { destruct _col_titles; [congruence | reflexivity]. }
  rewrite Hmax, bind_Ok_l.
  rewrite select_titles_take by (simpl; lia). rewrite app_nil_l.
  rewrite column_names_of_survivors; [reflexivity|].
  rewrite length_take. lia.
Qed.

Lemma C6_witness :
  [["Agent"; "Calls"]; [""]; ["Totals"]; ["Name"; "Taken"]; ["Agent"; "Calls"]] <> [] /\
  final_col_titles
    [["Agent"; "Calls"]; [""]; ["Totals"]; ["Name"; "Taken"]; ["Agent"; "Calls"]]
  = Ok ["TIME"; "Agent Name"; "Calls Taken"].
Proof.
  split; [discriminate|].
  apply (C6_final_col_titles_as_specified
           [["Agent"; "Calls"]; [""]; ["Totals"]; ["Name"; "Taken"]; ["Agent"; "Calls"]]).
  discriminate.
Defined.

(** ** Grid Assembler *)

Lemma row_indices_list_perm (d : list data_point) :
  row_indices_list d ≡ₚ elements (row_indices_set d).
Proof. apply merge_sort_Permutation. Qed.

Lemma row_indices_list_NoDup (d : list data_point) : NoDup (row_indices_list d).
Proof. rewrite row_indices_list_perm. apply NoDup_elements. Qed.

Lemma row_indices_list_length (d : list data_point) :
  length (row_indices_list d) = size (row_indices_set d).
Proof. now rewrite row_indices_list_perm. Qed.

Lemma elem_of_row_indices_list (d : list data_point) (r : Z) :
  r ∈ row_indices_list d <-> r ∈ row_of <$> d.
Proof.
  rewrite row_indices_list_perm, elem_of_elements.
  apply elem_of_list_to_set.
Qed.

Lemma strictly_ascending (l : list Z) :
  StronglySorted Z.le l -> NoDup l -> Sorted Z.lt l.
Proof.
  induction 1 as [|x l Hs IH Hall]; intros Hnd; [constructor|].
  apply NoDup_cons in Hnd as [Hx Hnd]. constructor; [now apply IH|].
  destruct l as [|y l']; constructor.
  apply Forall_cons in Hall as [Hxy _].
  assert (x <> y) by (intros ->; apply Hx; left). lia.
Qed.

Lemma row_indices_list_ascending (d : list data_point) :
  Sorted Z.lt (row_indices_list d).
Proof.
  apply strictly_ascending; [|apply row_indices_list_NoDup].
  apply (StronglySorted_merge_sort Z.le).
Qed.

Lemma sorted_rows_dict_rows (d : list data_point) :
  sorted_rows_dict d
  = (fun i => (i, snd <$> sort_by_col (filter (fun j => row_of j = i) d)))
      <$> row_indices_list d.
Proof.
  unfold sorted_rows_dict, matrix_dict.
  induction (row_indices_list d) as [|i l IH]; [reflexivity|].
  rewrite !fmap_cons. now f_equal.
Qed.

Lemma sorted_rows_dict_keys (d : list data_point) :
  (sorted_rows_dict d).*1 = row_indices_list d.
Proof.
  rewrite sorted_rows_dict_rows.
  induction (row_indices_list d) as [|i l IH]; [reflexivity|].
  rewrite !fmap_cons. now f_equal.
Qed.

(** the data points are the coordinates of the elements with text, in
    document order *)
Lemma classify_rows (Label_elets : list label) d0 t0 d t :
  for_each classify_step Label_elets (d0, t0) = Ok (d, t) ->
  row_of <$> d
  = (row_of <$> d0)
    ++ omap (fun i => if text_present i then fst <$> coordinate_of i else None) Label_elets.
Proof.
  revert d0 t0. induction Label_elets as [|i rest IH]; intros d0 t0; simpl.
  - intros [= <- <-]. now rewrite app_nil_r.
  - unfold text_present, coordinate_of. destruct (label_string i) as [s|] eqn:Hs.
    + destruct (css_to_dict (label_style i)) as [css|e] eqn:Hcss; simpl; [|discriminate].
      destruct (getitem css "font") as [font|e]; simpl; [|discriminate].
      destruct (get_index (label_style i)) as [idx|e]; simpl; [|discriminate].
      intros Hrest. rewrite (IH _ _ Hrest), fmap_app, <- app_assoc. reflexivity.
    + simpl. apply IH.
Qed.

(** C2 (as the code has it). The grid has one row for each distinct row
    coordinate among the elements whose text is present, header-styled
    ones and ones with blank text included, and its rows come in
    ascending order of that coordinate. *)
Theorem C2_grid_rows_are_distinct_row_coordinates (Label_elets : list label) d t :
  classify Label_elets = Ok (d, t) ->
  length (sorted_rows_dict d) = size (row_coordinates text_present Label_elets) /\
  Sorted Z.lt (sorted_rows_dict d).*1.
Proof.
  intros Hc. split.
  - rewrite <- (length_fmap fst), sorted_rows_dict_keys, row_indices_list_length.
    unfold row_indices_set, row_coordinates.
    now rewrite (classify_rows _ _ _ _ _ Hc).
  - rewrite sorted_rows_dict_keys. apply row_indices_list_ascending.
Qed.

Lemma C2_witness :
  length (sorted_rows_dict
            [((0, 50), "Agent"); ((5, 50), "Name"); ((20, 0), "Date:");
             ((20, 50), "10:00 AM Mon Jan 01, 2024"); ((30, 0), "09:15");
             ((30, 50), "John"); ((40, 50), "Jane"); ((40, 0), "09:16")])
  = size (row_coordinates text_present sample_report) /\
  Sorted Z.lt
    (sorted_rows_dict
       [((0, 50), "Agent"); ((5, 50), "Name"); ((20, 0), "Date:");
        ((20, 50), "10:00 AM Mon Jan 01, 2024"); ((30, 0), "09:15");
        ((30, 50), "John"); ((40, 50), "Jane"); ((40, 0), "09:16")]).*1.
Proof.
  apply (C2_grid_rows_are_distinct_row_coordinates sample_report _
           [["Agent"]; ["Name"]]).
  vm_compute. reflexivity.
Defined.

(** C2, the claim as stated fails: the two header fragments of the
    sample report are data points like the others, so the grid has five
    rows, where the fragments that are not header-styled and not blank
    lie on three row coordinates. *)
Lemma C2_header_fragments_add_rows :
  match classify sample_report with
  | Ok (d, _) => length (sorted_rows_dict d)
  | Err _ => 0%nat
  end = 5%nat /\
  size (row_coordinates spec_data_fragment sample_report) = 3%nat.
Proof. split; vm_compute; reflexivity. Qed.

Lemma filter_none {A} (P : A -> Prop) `{!forall x, Decision (P x)} (l : list A) :
  (forall x, x ∈ l -> ~ P x) -> filter P l = [].
Proof.
  induction l as [|x l IH]; intros Hall; [reflexivity|].
  rewrite filter_cons_False by (apply Hall; left).
  apply IH. intros y Hy. apply Hall. now right.
Qed.

(** *** The sort of a row keeps the document order of equal columns *)

Section sort_by_col.

Implicit Types (x : data_point) (l : list data_point) (c : Z).

Lemma insert_by_col_perm x l : insert_by_col x l ≡ₚ x :: l.
Proof.
  induction l as [|y l IH]; simpl; [reflexivity|].
  destruct (col_of x <=? col_of y); [reflexivity|].
  rewrite IH. apply Permutation_swap.
Qed.

Lemma sort_by_col_perm l : sort_by_col l ≡ₚ l.
Proof.
  induction l as [|x l IH]; simpl; [reflexivity|].
  now rewrite insert_by_col_perm, IH.
Qed.

Lemma insert_by_col_sorted x l :
  Sorted (fun p q => col_of p <= col_of q) l ->
  Sorted (fun p q => col_of p <= col_of q) (insert_by_col x l).
Proof.
  induction 1 as [|y l Hs IH Hhd]; simpl; [repeat constructor|].
  destruct (col_of x <=? col_of y) eqn:Hle.
  - apply Z.leb_le in Hle. repeat constructor; assumption.
  - apply Z.leb_gt in Hle. constructor; [exact IH|].
    destruct Hhd as [|z l' Hyz]; simpl.
    + constructor. lia.
    + destruct (col_of x <=? col_of z); constructor; [lia | assumption].
Qed.

Lemma sort_by_col_sorted l :
  Sorted (fun p q => col_of p <= col_of q) (sort_by_col l).
Proof.
  induction l as [|x l IH]; simpl; [constructor | now apply insert_by_col_sorted].
Qed.

Lemma filter_insert_by_col x l c :
  filter (fun p => col_of p = c) (insert_by_col x l)
  = filter (fun p => col_of p = c) (x :: l).
Proof.
  induction l as [|y l IH]; simpl; [reflexivity|].
  destruct (col_of x <=? col_of y) eqn:Hle; [reflexivity|].
  apply Z.leb_gt in Hle. rewrite (filter_cons _ y), IH, !(filter_cons _ x).
  destruct (decide (col_of x = c)) as [Hx|Hx]; [|now rewrite (filter_cons _ y)].
  rewrite (filter_cons _ y). destruct (decide (col_of y = c)); [lia | reflexivity].
Qed.

Lemma sort_by_col_stable l c :
  filter (fun p => col_of p = c) (sort_by_col l) = filter (fun p => col_of p = c) l.
Proof.
  induction l as [|x l IH]; simpl; [reflexivity|].
  now rewrite filter_insert_by_col, !filter_cons, IH.
Qed.

Lemma filter_row_col l (r c : Z) :
  filter (fun p => col_of p = c) (filter (fun p => row_of p = r) l)
  = filter (fun p => p.1 = (r, c)) l.
Proof.
  rewrite list_filter_filter. apply list_filter_iff.
  intros [[i j] s]. unfold row_of, col_of. simpl. split.
  - intros [-> ->]. reflexivity.
  - intros [= -> ->]. split; reflexivity.
Qed.

Lemma col_le_StronglySorted (l : list data_point) :
  StronglySorted col_le (sort_by_col l).
Proof.
  apply Sorted_StronglySorted; [intros x y z; unfold col_le; lia|].
  apply sort_by_col_sorted.
Qed.

(** a row sorted by column is, around any column, the points left of
    it, then the points on it, then the points right of it *)
Lemma sorted_row_around_column l c :
  StronglySorted col_le l ->
  l = filter (fun p => col_of p < c) l
      ++ filter (fun p => col_of p = c) l
      ++ filter (fun p => c < col_of p) l.
Proof.
  induction 1 as [|x l Hs IH Hall]; [reflexivity|].
  rewrite !(filter_cons _ x).
  destruct (Z.lt_trichotomy (col_of x) c) as [Hlt|[Heq|Hgt]].
  - rewrite decide_True, decide_False, decide_False by lia.
    simpl. f_equal. exact IH.
  - rewrite decide_False, decide_True, decide_False by lia.
    assert (filter (fun p => col_of p < c) l = []) as Hleft.
    { apply filter_none. intros y Hy. rewrite Forall_forall in Hall.
      specialize (Hall y Hy). unfold col_le in Hall. lia. }
    rewrite Hleft in IH |- *. simpl. f_equal. exact IH.
  - rewrite decide_False, decide_False, decide_True by lia.
    assert (filter (fun p => col_of p < c) l = []) as Hleft.
    { apply filter_none. intros y Hy. rewrite Forall_forall in Hall.
      specialize (Hall y Hy). unfold col_le in Hall. lia. }
    assert (filter (fun p => col_of p = c) l = []) as Hon.
    { apply filter_none. intros y Hy. rewrite Forall_forall in Hall.
      specialize (Hall y Hy). unfold col_le in Hall. lia. }
    rewrite Hleft, Hon in IH |- *. simpl. f_equal. exact IH.
Qed.

End sort_by_col.

(** C5 (as the code has it). The assembler neither overwrites nor
    rejects: the grid row of a row coordinate holds one cell for every
    data point on that coordinate, in order of column from left to
    right; the data points that share a row and a column coordinate all
    stand in that row, side by side and in document order, after the
    points of the columns to their left and before those to their
    right. *)
Theorem C5_shared_coordinates_all_kept (d : list data_point) (r : Z) :
  r ∈ row_of <$> d ->
  exists points : list data_point,
    (r, snd <$> points) ∈ sorted_rows_dict d /\
    points ≡ₚ filter (fun p => row_of p = r) d /\
    Sorted col_le points /\
    (forall c, filter (fun p => col_of p = c) points = filter (fun p => p.1 = (r, c)) d) /\
    (forall c, exists before after,
        points = before ++ filter (fun p => p.1 = (r, c)) d ++ after /\
        Forall (fun p => col_of p < c) before /\
        Forall (fun p => c < col_of p) after).
Proof.
  intros Hr. exists (sort_by_col (filter (fun p => row_of p = r) d)).
  assert (forall c, filter (fun p => col_of p = c)
                      (sort_by_col (filter (fun p => row_of p = r) d))
                    = filter (fun p => p.1 = (r, c)) d) as Hstable.
  { intros c. rewrite sort_by_col_stable. apply filter_row_col. }
  split; [|split; [|split; [|split]]].
  - rewrite sorted_rows_dict_rows.
    apply list_elem_of_fmap. exists r. split; [reflexivity|].
    now apply elem_of_row_indices_list.
  - apply sort_by_col_perm.
  - apply sort_by_col_sorted.
  - exact Hstable.
  - intros c.
    exists (filter (fun p => col_of p < c) (sort_by_col (filter (fun p => row_of p = r) d))),
           (filter (fun p => c < col_of p) (sort_by_col (filter (fun p => row_of p = r) d))).
    split; [|split].
    + rewrite <- Hstable. apply sorted_row_around_column, col_le_StronglySorted.
    + apply Forall_forall. now intros p [Hp _]%list_elem_of_filter.
    + apply Forall_forall. now intros p [Hp _]%list_elem_of_filter.
Qed.

Lemma C5_witness :
  exists points : list data_point,
    (30, snd <$> points)
      ∈ sorted_rows_dict [((30, 0), "09:15"); ((30, 50), "John"); ((30, 0), "09:16")] /\
    points ≡ₚ filter (fun p => row_of p = 30)
                [((30, 0), "09:15"); ((30, 50), "John"); ((30, 0), "09:16")] /\
    Sorted col_le points /\
    (forall c, filter (fun p => col_of p = c) points
               = filter (fun p => p.1 = (30, c))
                   [((30, 0), "09:15"); ((30, 50), "John"); ((30, 0), "09:16")]) /\
    (forall c, exists before after,
        points = before
                 ++ filter (fun p => p.1 = (30, c))
                      [((30, 0), "09:15"); ((30, 50), "John"); ((30, 0), "09:16")]
                 ++ after /\
        Forall (fun p => col_of p < c) before /\
        Forall (fun p => c < col_of p) after).
Proof.
  apply (C5_shared_coordinates_all_kept
           [((30, 0), "09:15"); ((30, 50), "John"); ((30, 0), "09:16")] 30).
  vm_compute. left.
Defined.

(** C5, the claim as stated fails: two fragments on the cell at row 30
    and column 0 are both in the table that is written; neither replaced
    the other and the run did not fail. *)
Lemma C5_shared_cell_keeps_both :
  main "report.html" false shared_cell_report
  = (Ok tt, [WriteCsv "phone_data_report.html.csv"
               (mk_table ["Date"; "TIME"; "Agent Name"]
                         [[CDate sample_date; CStr "09:15"; CStr "09:16"]])]).
Proof. vm_compute. reflexivity. Qed.

(** ** Metadata Extractor *)

Lemma for_each_invariant {A S} (P : S -> Prop) (body : S -> A -> result S) (xs : list A) :
  (forall s a s', P s -> body s a = Ok s' -> P s') ->
  forall s s', P s -> for_each body xs s = Ok s' -> P s'.
Proof.
  intros Hstep. induction xs as [|x xs IH]; intros s s' Hs; simpl.
  - now intros [= <-].
  - destruct (body s x) as [s1|e] eqn:Hb; simpl; [|discriminate].
    apply IH. now apply Hstep with s x.
Qed.

(** a loop whose turns raise nothing but [e] raises nothing but [e] *)
Lemma for_each_only_error {A S} (e : error) (body : S -> A -> result S) (xs : list A) :
  (forall s a e', body s a = Err e' -> e' = e) ->
  forall s e', for_each body xs s = Err e' -> e' = e.
Proof.
  intros Hstep. induction xs as [|x xs IH]; intros s e'; simpl; [discriminate|].
  destruct (body s x) as [s1|e1] eqn:Hb; simpl.
  - apply IH.
  - intros [= <-]. now apply Hstep with s x.
Qed.

Lemma list_item_error {A} (val : list A) (n : nat) e :
  list_item val n = Err e -> e = IndexError.
Proof. unfold list_item. destruct (val !! n); [discriminate | now intros [= <-]]. Qed.

Lemma list_item_in_range {A} (val : list A) (n : nat) :
  (n < length val)%nat -> exists x, list_item val n = Ok x.
Proof.
  intros Hn. unfold list_item. destruct (lookup_lt_is_Some_2 val n Hn) as [x ->]. eauto.
Qed.

Lemma list_item_past_end {A} (val : list A) (n : nat) :
  (length val <= n)%nat -> list_item val n = Err IndexError.
Proof. intros Hn. unfold list_item. now rewrite lookup_ge_None_2. Qed.

Lemma metadata_cell_error val md i e :
  metadata_cell val md i = Err e -> e = IndexError.
Proof.
  unfold metadata_cell. destruct (Py.re_match_label i); [|discriminate].
  destruct (list_item val (list_index i val + 1)) as [v|e1] eqn:Hv; simpl; [discriminate|].
  intros [= <-]. now apply list_item_error in Hv.
Qed.

Lemma metadata_row_error md item e :
  metadata_row md item = Err e -> e = IndexError.
Proof.
  unfold metadata_row. destruct (length item.2 =? 1)%nat.
  - destruct (list_item item.2 0) as [v0|e0] eqn:H0; simpl.
    + destruct (Py.re_match_label v0); [|discriminate].
      destruct (list_item (Py.split ":" v0) 0) as [k|e1] eqn:H1; simpl.
      * destruct (list_item (Py.split ":" v0) 1) as [v|e2] eqn:H2; simpl; [discriminate|].
        intros [= <-]. now apply list_item_error in H2.
      * intros [= <-]. now apply list_item_error in H1.
    + intros [= <-]. now apply list_item_error in H0.
  - apply for_each_only_error. intros s a e'. apply metadata_cell_error.
Qed.

Lemma extract_metadata_error rows e :
  extract_metadata rows = Err e -> e = IndexError.
Proof. apply for_each_only_error. intros s a e'. apply metadata_row_error. Qed.

(** [val.index(i)] is the place of the first cell equal to [i] *)
Lemma list_index_elem (i : string) (val : list string) :
  i ∈ val -> (list_index i val < length val)%nat.
Proof.
  induction val as [|x val IH]; simpl; [now intros ?%elem_of_nil|].
  destruct (decide (x = i)); [lia|].
  intros [?|?]%elem_of_cons; [congruence|]. specialize (IH ltac:(assumption)). lia.
Qed.

Lemma list_index_app_l (i : string) (val rest : list string) :
  i ∈ val -> list_index i (val ++ rest) = list_index i val.
Proof.
  induction val as [|x val IH]; simpl; [now intros ?%elem_of_nil|].
  destruct (decide (x = i)); [reflexivity|].
  intros [?|?]%elem_of_cons; [congruence|]. now rewrite IH.
Qed.

Lemma list_index_fresh (i : string) (val rest : list string) :
  i ∉ val -> list_index i (val ++ i :: rest) = length val.
Proof.
  induction val as [|x val IH]; simpl; intros Hi.
  - now rewrite decide_True.
  - apply not_elem_of_cons in Hi as [Hx Hi].
    rewrite decide_False by congruence. now rewrite IH.
Qed.

(** the cells before the last one never look past the end of the row *)
Lemma metadata_cells_before_last (val cells : list string) md :
  (forall i, i ∈ cells -> (list_index i val + 1 < length val)%nat) ->
  exists md', for_each (metadata_cell val) cells md = Ok md'.
Proof.
  revert md. induction cells as [|i cells IH]; intros md Hin; simpl; [eauto|].
  assert (exists md1, metadata_cell val md i = Ok md1) as [md1 ->].
  { unfold metadata_cell. destruct (Py.re_match_label i); [|eauto].
    destruct (list_item_in_range val (list_index i val + 1)) as [v ->]; [|simpl; eauto].
    apply Hin. left. }
  simpl. apply IH. intros j Hj. apply Hin. now right.
Qed.

(** a row of several cells that ends in a label seen nowhere before in
    the row makes its turn of the loop raise [IndexError] *)
Lemma metadata_row_trailing_label md (k : Z) (init : list string) (last : string) :
  init <> [] -> Py.re_match_label last = true -> last ∉ init ->
  metadata_row md (k, init ++ [last]) = Err IndexError.
Proof.
  intros Hinit Hlast Hfresh. unfold metadata_row. simpl.
  assert ((length (init ++ [last]) =? 1)%nat = false) as ->.
  { apply Nat.eqb_neq. rewrite length_app. simpl. destruct init; [congruence | simpl; lia]. }
  rewrite for_each_app.
  destruct (metadata_cells_before_last (init ++ [last]) init md) as [md' ->].
  { intros i Hi. rewrite list_index_app_l by assumption.
    apply list_index_elem in Hi. rewrite length_app. simpl. lia. }
  simpl. unfold metadata_cell. rewrite Hlast, list_index_fresh by assumption.
  rewrite list_item_past_end; [reflexivity|]. rewrite length_app. simpl. lia.
Qed.

(** C10 (as the code has it). When a grid row of several cells ends in
    a cell that matches the label pattern and equals no earlier cell of
    that row, the look-up of the value reads one place past the end of
    the row: the run ends with [IndexError] and leaves nothing behind. *)
Theorem C10_trailing_label_raises_IndexError
  (TARGET_FILE : string) (useSQL : bool) (Label_elets : list label)
  d t titles (k : Z) (init : list string) (last : string) :
  classify Label_elets = Ok (d, t) ->
  final_col_titles t = Ok titles ->
  (k, init ++ [last]) ∈ sorted_rows_dict d ->
  init <> [] ->
  Py.re_match_label last = true ->
  last ∉ init ->
  main TARGET_FILE useSQL Label_elets = (Err IndexError, []).
Proof.
  intros Hc Ht Hrow Hinit Hlast Hfresh.
  apply list_elem_of_split in Hrow as (rows1 & rows2 & Hrows).
  assert (extract_metadata (sorted_rows_dict d) = Err IndexError) as Hm.
  { destruct (for_each_raises metadata_row rows1 rows2 (k, init ++ [last]) []) as [e He].
    - intros md. exists IndexError. now apply metadata_row_trailing_label.
    - unfold extract_metadata. rewrite Hrows, He. f_equal.
      apply (extract_metadata_error (rows1 ++ (k, init ++ [last]) :: rows2)). exact He. }
  unfold main, transform. rewrite Hc. simpl. rewrite Ht. simpl. now rewrite Hm.
Qed.

Lemma C10_witness :
  main "report.html" false trailing_label_report = (Err IndexError, []).
Proof.
  eapply (C10_trailing_label_raises_IndexError "report.html" false trailing_label_report
            _ _ _ 30 ["09:15"] "Skill:").
  - vm_compute. reflexivity.
  - vm_compute. reflexivity.
  - vm_compute. do 3 right. left.
  - discriminate.
  - vm_compute. reflexivity.
  - intros Hin. apply list_elem_of_singleton in Hin. discriminate.
Defined.

(** C10, the claim as stated fails: the row at 30 has two cells and ends
    in a label, but the same label stands before it, so [index] finds
    the first of the two and the look-up stays inside the row; the
    record is built and the run goes on to the end. *)
Lemma C10_repeated_label_in_range :
  Py.re_match_label "Skill:" = true /\
  extract_metadata [(30, ["Skill:"; "Skill:"])] = Ok [("Skill", "Skill:")] /\
  main "report.html" false repeated_label_report
  = (Ok tt, [WriteCsv "phone_data_report.html.csv"
               (mk_table ["Skill"; "Date"; "TIME"; "Agent Name"] [])]).
Proof. repeat split; vm_compute; reflexivity. Qed.

(** C3: the code at the input of the scenario. The only cell of the row
    is split at every colon and the second piece is taken, so the record
    maps "Date" to "10", not to "10:00 AM Mon Jan 01, 2024"; the
    timestamp then fails to parse and the run ends with [ValueError]. *)
Theorem C3_one_cell_date_cut_at_second_colon :
  Py.re_match_label "Date: 10:00 AM Mon Jan 01, 2024" = true /\
  extract_metadata [(20, ["Date: 10:00 AM Mon Jan 01, 2024"])] = Ok [("Date", "10")] /\
  Strptime.strptime "10:00 AM Mon Jan 01, 2024" = Ok sample_date /\
  main "report.html" false one_cell_date_report
  = (Err (ValueError "time data does not match format"), []).
Proof. repeat split; vm_compute; reflexivity. Qed.

(** ** Table Normalizer *)

Lemma frame_width_ge (rows : list (Z * list string)) k val :
  (k, val) ∈ rows -> (length val <= frame_width rows)%nat.
Proof.
  unfold frame_width. induction rows as [|[k' val'] rows IH]; simpl.
  - now intros ?%elem_of_nil.
  - intros [[= -> ->]|Hin]%elem_of_cons; [apply Nat.le_max_l|].
    etrans; [apply IH, Hin | apply Nat.le_max_r].
Qed.

Lemma pad_row_length (width : nat) (val : list string) :
  (length val <= width)%nat -> length (pad_row width val) = width.
Proof.
  intros Hle. unfold pad_row. rewrite length_app, length_fmap, length_replicate. lia.
Qed.

Lemma on_first_cell_length (f : cell -> cell) (r : list cell) :
  length (on_first_cell f r) = length r.
Proof. now destruct r. Qed.

Lemma elem_of_from_dict (rows : list (Z * list string)) k cells :
  (k, cells) ∈ from_dict rows <->
  exists val, (k, val) ∈ rows /\ cells = pad_row (frame_width rows) val.
Proof.
  unfold from_dict. rewrite list_elem_of_fmap. split.
  - intros ([k' val] & [= -> ->] & Hin). eauto.
  - intros (val & Hin & ->). exists (k, val). eauto.
Qed.

Lemma elem_of_clean_rows (df : frame) k cells :
  (k, cells) ∈ clean_rows df <->
  exists cells0, (k, cells0) ∈ df /\ survives cells0 = true /\ cells = clean_first cells0.
Proof.
  unfold clean_rows, survives, clean_first.
  rewrite list_elem_of_fmap. split.
  - intros ([k3 c3] & [= -> ->] & H3). simpl in *.
    apply list_elem_of_filter in H3 as [Hna H3]. simpl in Hna.
    apply list_elem_of_fmap in H3 as ([k2 c2] & [= -> ->] & H2). simpl in *.
    apply list_elem_of_fmap in H2 as ([k1 c1] & [= -> ->] & H1). simpl in *.
    apply list_elem_of_filter in H1 as [Hnl H1]. simpl in Hnl.
    exists c1. rewrite Hnl, Hna. auto.
  - intros (c0 & Hin & [Hnl Hna]%andb_true_iff & ->).
    exists (k, on_first_cell dashes_to_missing (on_first_cell blank_to_missing c0)).
    split; [reflexivity|].
    apply list_elem_of_filter. split; [exact Hna|].
    apply list_elem_of_fmap. exists (k, on_first_cell blank_to_missing c0).
    split; [reflexivity|].
    apply list_elem_of_fmap. exists (k, c0). split; [reflexivity|].
    apply list_elem_of_filter. split; [exact Hnl | exact Hin].
Qed.

Lemma clean_first_length (r : list cell) : length (clean_first r) = length r.
Proof. unfold clean_first. now rewrite !on_first_cell_length. Qed.

(** a padded row stays in the frame when its first cell is a string
    that the normalizer does not reject *)
Lemma survives_pad_row (width : nat) (val : list string) :
  (0 < width)%nat ->
  survives (pad_row width val) = true <->
  exists s rest, val = s :: rest /\ rejected_first_cell s = false.
Proof.
  intros Hw. unfold survives, rejected_first_cell. destruct val as [|s rest].
  - unfold pad_row. simpl. destruct width; [lia|]. simpl. split; [discriminate|].
    intros (s & rest & [=] & _).
  - unfold pad_row. simpl. split.
    + intros H. exists s, rest. split; [reflexivity|].
      destruct (Py.has_letter s); [discriminate|]. simpl in H.
      destruct (decide (s = "")) as [->|Hs]; [discriminate|].
      rewrite bool_decide_eq_false_2 by assumption. simpl in *.
      destruct (Py.has_dash_run s); [discriminate | reflexivity].
    + intros (s' & rest' & [= <- <-] & H).
      apply orb_false_iff in H as [[Hs Hd]%orb_false_iff Hl].
      apply bool_decide_eq_false in Hs. rewrite Hl. simpl.
      rewrite decide_False by assumption. simpl. now rewrite Hd.
Qed.

Lemma clean_first_pad_row (width : nat) (s : string) (rest : list string) :
  rejected_first_cell s = false ->
  clean_first (pad_row width (s :: rest))
  = CStr (Py.remove_spaces s) :: (CStr <$> rest) ++ replicate (width - S (length rest)) CMissing.
Proof.
  unfold rejected_first_cell, clean_first, pad_row. simpl.
  intros [[Hs Hd]%orb_false_iff Hl]%orb_false_iff.
  apply bool_decide_eq_false in Hs.
  rewrite decide_False by assumption. simpl. now rewrite Hd.
Qed.

Lemma fmap_app_nil {A} (l : list (list A)) : app [] <$> l = l.
Proof. induction l as [|x l IH]; [reflexivity|]. rewrite fmap_cons. now f_equal. Qed.

(** every metadata column goes in front of the ones before it *)
Lemma insert_columns (md : list (string * cell)) (t t' : table) :
  for_each insert_column md t = Ok t' ->
  tb_columns t' = reverse md.*1 ++ tb_columns t /\
  tb_rows t' = app (reverse md.*2) <$> tb_rows t.
Proof.
  revert t. induction md as [|[k v] md IH]; intros t.
  - simpl. intros [= <-]. split; [reflexivity|]. symmetry. apply fmap_app_nil.
  - change (for_each insert_column ((k, v) :: md) t)
      with (insert_column t (k, v) ≫= for_each insert_column md).
    intros H. apply bind_Ok in H as (t1 & H1 & H).
    unfold insert_column in H1. simpl in H1.
    destruct (decide (k ∈ tb_columns t)); [discriminate|]. injection H1 as <-.
    apply IH in H as [Hc Hr]. simpl in Hc, Hr.
    rewrite Hc, Hr, !fmap_cons, !reverse_cons, <- !app_assoc. split; [reflexivity|].
    rewrite <- list_fmap_compose. apply list_fmap_ext. intros _ r _. simpl.
    now rewrite <- app_assoc.
Qed.

Lemma normalize_Ok rows titles md t :
  normalize rows titles md = Ok t ->
  (0 < frame_width rows)%nat /\
  length titles = frame_width rows /\
  for_each insert_column md (mk_table titles (clean_rows (from_dict rows)).*2) = Ok t.
Proof.
  unfold normalize.
  destruct (frame_width rows =? 0)%nat eqn:Hw; [discriminate|].
  destruct (length titles =? frame_width rows)%nat eqn:Ht; simpl; [|discriminate].
  apply Nat.eqb_neq in Hw. apply Nat.eqb_eq in Ht. intros H. repeat split; [lia|assumption..].
Qed.

Lemma transform_Ok (Label_elets : list label) (o : outcome) :
  transform Label_elets = Ok o ->
  exists d t md,
    classify Label_elets = Ok (d, t) /\
    final_col_titles t = Ok (out_titles o) /\
    out_grid o = sorted_rows_dict d /\
    extract_metadata (out_grid o) = Ok md /\
    fix_timestamp md = Ok (out_metadata o) /\
    normalize (out_grid o) (out_titles o) (out_metadata o) = Ok (out_table o).
Proof.
  unfold transform. intros H.
  apply bind_Ok in H as ([d t] & Hc & H).
  apply bind_Ok in H as (titles & Ht & H).
  apply bind_Ok in H as (md & Hm & H).
  apply bind_Ok in H as (md' & Hf & H).
  apply bind_Ok in H as (df1 & Hn & [= <-]). simpl.
  exists d, t, md. auto 10.
Qed.

Lemma clean_rows_row_length (rows : list (Z * list string)) k cells :
  (k, cells) ∈ table_body rows -> length cells = frame_width rows.
Proof.
  intros (cells0 & Hin & _ & ->)%elem_of_clean_rows.
  apply elem_of_from_dict in Hin as (val & Hin & ->).
  rewrite clean_first_length. apply pad_row_length. now apply frame_width_ge with k.
Qed.

(** *** The keys of the metadata record are distinct *)

Lemma setitem_keys {V} (d : list (string * V)) (k : string) (v : V) (x : string) :
  x ∈ (setitem d k v).*1 -> x = k \/ x ∈ d.*1.
Proof.
  induction d as [|[k' v'] d IH]; simpl.
  - intros ->%list_elem_of_singleton. now left.
  - destruct (decide (k' = k)); simpl; [now right|].
    intros [->|Hx]%elem_of_cons; [right; left|].
    destruct (IH Hx); [now left | right; now right].
Qed.

Lemma setitem_NoDup {V} (d : list (string * V)) (k : string) (v : V) :
  NoDup d.*1 -> NoDup (setitem d k v).*1.
Proof.
  induction d as [|[k' v'] d IH]; simpl.
  - intros _. apply NoDup_singleton.
  - intros [Hk' Hd]%NoDup_cons. destruct (decide (k' = k)); simpl.
    + now apply NoDup_cons.
    + apply NoDup_cons. split; [|now apply IH].
      intros [->|Hin]%setitem_keys; [congruence | contradiction].
Qed.

Lemma extract_metadata_NoDup rows md :
  extract_metadata rows = Ok md -> NoDup md.*1.
Proof.
  apply (for_each_invariant (fun md => NoDup md.*1)); [|apply NoDup_nil_2].
  intros md0 item md1 Hnd. unfold metadata_row.
  destruct (length item.2 =? 1)%nat.
  - returns (list_item item.2 0) as v0.
    destruct (Py.re_match_label v0); [|now intros [= <-]].
    returns (list_item (Py.split ":" v0) 0) as k.
    returns (list_item (Py.split ":" v0) 1) as v.
    intros [= <-]. now apply setitem_NoDup.
  - apply (for_each_invariant (fun md => NoDup md.*1)); [|exact Hnd].
    intros md2 i md3 Hnd2. unfold metadata_cell.
    destruct (Py.re_match_label i); [|now intros [= <-]].
    returns (list_item item.2 (list_index i item.2 + 1)) as v.
    intros [= <-]. now apply setitem_NoDup.
Qed.

Lemma fix_timestamp_NoDup md md' :
  fix_timestamp md = Ok md' -> NoDup md.*1 -> NoDup md'.*1.
Proof.
  unfold fix_timestamp.
  returns (lookup_key md "Date") as ts.
  returns (Strptime.strptime ts) as d.
  intros [= <-] Hnd. apply setitem_NoDup.
  rewrite <- list_fmap_compose.
  now rewrite (list_fmap_ext (fst ∘ prod_map id CStr) fst md) by now intros ? [].
Qed.

(** C8. Every row of a table the run produces has as many cells as
    there are column names in the header plus keys in the metadata
    record, and the columns of the table are the metadata keys, the last
    one first, followed by the header names; the keys are distinct, so
    the length of the record is the number of its keys. *)
Theorem C8_table_rows_have_all_columns (Label_elets : list label) (o : outcome) :
  transform Label_elets = Ok o ->
  Forall (fun r => length r = (length (out_titles o) + length (out_metadata o))%nat)
         (tb_rows (out_table o)) /\
  tb_columns (out_table o) = reverse (out_metadata o).*1 ++ out_titles o /\
  NoDup (out_metadata o).*1.
Proof.
  intros (d & t & md & Hc & Ht & Hg & Hm & Hf & Hn)%transform_Ok.
  apply normalize_Ok in Hn as (Hw & Hlen & Hins).
  apply insert_columns in Hins as [Hcols Hrows]. simpl in Hcols, Hrows.
  split; [|split].
  - rewrite Hrows. apply Forall_fmap, Forall_fmap, Forall_forall.
    intros [k cells] Hin. simpl.
    rewrite length_app, length_reverse, length_fmap.
    rewrite (clean_rows_row_length _ _ _ Hin). lia.
  - exact Hcols.
  - apply (fix_timestamp_NoDup md); [exact Hf|]. now apply extract_metadata_NoDup in Hm.
Qed.

Lemma C8_witness :
  Forall (fun r => length r = (length ["TIME"; "Agent Name"; "Skill Group"]
                               + length [("Date", CDate sample_date); ("Skill", CStr "Sales")])%nat)
         [[CStr "Sales"; CDate sample_date; CStr "09:15"; CStr "Skill:"; CStr "Sales"]] /\
  ["Skill"; "Date"; "TIME"; "Agent Name"; "Skill Group"]
  = reverse [("Date", CDate sample_date); ("Skill", CStr "Sales")].*1
    ++ ["TIME"; "Agent Name"; "Skill Group"] /\
  NoDup [("Date", CDate sample_date); ("Skill", CStr "Sales")].*1.
Proof.
  apply (C8_table_rows_have_all_columns skill_report skill_outcome).
  vm_compute. reflexivity.
Defined.

(** *** What a cell of the grid looks like *)

Lemma isspace_blank (c : ascii) : Py.isspace c = false -> Py.is_char " " c = false.
Proof. destruct c as [[] [] [] [] [] [] [] []]; vm_compute; congruence. Qed.

Lemma isspace_nbsp (c : ascii) (r : string) :
  Py.isspace c = false -> String.prefix (String Py.nbsp "") (String c r) = false.
Proof. destruct c as [[] [] [] [] [] [] [] []]; vm_compute; congruence. Qed.

Lemma lstrip_head (p : ascii -> bool) (s : string) :
  Py.lstrip_by p s = "" \/ exists c r, Py.lstrip_by p s = String c r /\ p c = false.
Proof.
  induction s as [|c s IH]; simpl; [now left|].
  destruct (p c) eqn:Hc; [exact IH | right; eauto].
Qed.

Lemma rstrip_head (p : ascii -> bool) (c : ascii) (r : string) :
  p c = false -> exists r', Py.rstrip_by p (String c r) = String c r'.
Proof. intros Hc. simpl. destruct (Py.rstrip_by p r); rewrite ?Hc; eauto. Qed.

Lemma strip_head (s : string) :
  Py.strip s = "" \/ exists c r, Py.strip s = String c r /\ Py.isspace c = false.
Proof.
  unfold Py.strip, Py.strip_by.
  destruct (lstrip_head Py.isspace s) as [->|(c & r & -> & Hc)]; [now left|].
  right. destruct (rstrip_head Py.isspace c r Hc) as [r' ->]. eauto.
Qed.

Lemma replace_keeps_head (old new : string) (c : ascii) (r : string) :
  String.prefix old (String c r) = false ->
  Py.replace old new (String c r) = String c (Py.replace old new r).
Proof.
  intros Hp. unfold Py.replace.
  change (Py.replace_from old new 0 (String c r))
    with (if String.prefix old (String c r)
          then new +:+ Py.replace_from old new (String.length old - 1) r
          else String c (Py.replace_from old new 0 r)).
  now rewrite Hp.
Qed.

Lemma cell_text_head (s : string) :
  cell_text s = "" \/ exists c r, cell_text s = String c r /\ Py.isspace c = false.
Proof.
  unfold cell_text. destruct (strip_head s) as [->|(c & r & -> & Hc)]; [now left|].
  right. rewrite replace_keeps_head by now apply isspace_nbsp. eauto.
Qed.

Lemma remove_spaces_head (c : ascii) (r : string) :
  Py.isspace c = false -> Py.remove_spaces (String c r) <> "".
Proof. intros Hc. simpl. now rewrite (isspace_blank c Hc). Qed.

Lemma remove_spaces_no_letter (s : string) :
  Py.has_letter s = false -> Py.has_letter (Py.remove_spaces s) = false.
Proof.
  unfold Py.has_letter. induction s as [|c s IH]; simpl; [reflexivity|].
  intros [Hc Hs]%orb_false_iff.
  destruct (Py.is_char " " c); simpl; [now apply IH|]. now rewrite Hc, IH.
Qed.

Lemma all_dashes_dash_run (s : string) :
  all_dashes s = true -> Py.has_dash_run s = true.
Proof.
  unfold all_dashes. intros [Hlen Hall]%andb_true_iff.
  destruct s as [|a [|b r]]; simpl in *; try discriminate.
  apply andb_true_iff in Hall as [Ha Hall].
  apply andb_true_iff in Hall as [Hb _].
  now rewrite Ha, Hb.
Qed.

Lemma rejected_first_cell_spec (s : string) :
  s = "" \/ all_dashes s = true \/ Py.has_letter s = true -> rejected_first_cell s = true.
Proof.
  unfold rejected_first_cell. intros [->|[Hd|Hl]].
  - reflexivity.
  - rewrite (all_dashes_dash_run s Hd). apply orb_true_iff. left. apply orb_true_r.
  - rewrite Hl. apply orb_true_r.
Qed.

(** the text of every data point went through [cell_text] *)
Lemma classify_texts (Label_elets : list label) d t :
  classify Label_elets = Ok (d, t) ->
  Forall (fun p : data_point => exists s, p.2 = cell_text s) d.
Proof.
  intros Hc.
  apply (for_each_invariant
           (fun st : list data_point * list (list string) =>
              Forall (fun p : data_point => exists s, p.2 = cell_text s) st.1)
           classify_step Label_elets) with (s := ([], [])) (s' := (d, t));
    [|constructor|exact Hc].
  intros [d0 t0] i [d1 t1] Hd0. unfold classify_step.
  destruct (label_string i) as [s|]; [|now intros [= <- <-]].
  returns (css_to_dict (label_style i)) as css.
  returns (getitem css "font") as font.
  returns (get_index (label_style i)) as idx.
  intros [= <- <-]. simpl. apply Forall_app. split; [exact Hd0|].
  repeat constructor. simpl. eauto.
Qed.

(** the cells of a grid row are texts of data points *)
Lemma sorted_rows_dict_cells (d : list data_point) k val s :
  (k, val) ∈ sorted_rows_dict d -> s ∈ val -> exists p, p ∈ d /\ p.2 = s.
Proof.
  rewrite sorted_rows_dict_rows.
  intros (i & [= -> ->] & _)%list_elem_of_fmap.
  intros (p & -> & Hp)%list_elem_of_fmap.
  rewrite sort_by_col_perm in Hp. apply list_elem_of_filter in Hp as [_ Hp]. eauto.
Qed.

Lemma NoDup_fst_functional {A B} (l : list (A * B)) k a b :
  NoDup l.*1 -> (k, a) ∈ l -> (k, b) ∈ l -> a = b.
Proof.
  induction l as [|[k' v] l IH]; simpl; [now intros _ ?%elem_of_nil|].
  intros [Hk Hl]%NoDup_cons [[= -> ->]|Ha]%elem_of_cons [[= ->]|Hb]%elem_of_cons.
  - reflexivity.
  - destruct Hk. apply list_elem_of_fmap. now exists (k', b).
  - subst. destruct Hk. apply list_elem_of_fmap. now exists (k', a).
  - now apply IH.
Qed.

Lemma sorted_rows_dict_NoDup (d : list data_point) : NoDup (sorted_rows_dict d).*1.
Proof. rewrite sorted_rows_dict_keys. apply row_indices_list_NoDup. Qed.

(** the rows that stay are the rows whose first cell is not rejected *)
Lemma elem_of_table_body (rows : list (Z * list string)) k cells :
  (0 < frame_width rows)%nat ->
  (k, cells) ∈ table_body rows <->
  exists s rest,
    (k, s :: rest) ∈ rows /\ rejected_first_cell s = false /\
    cells = clean_first (pad_row (frame_width rows) (s :: rest)).
Proof.
  intros Hw. unfold table_body. rewrite elem_of_clean_rows. split.
  - intros (cells0 & (val & Hin & ->)%elem_of_from_dict & Hs & ->).
    apply survives_pad_row in Hs as (s & rest & -> & Hs); [|exact Hw]. eauto 6.
  - intros (s & rest & Hin & Hs & ->).
    exists (pad_row (frame_width rows) (s :: rest)). split; [|split; [|reflexivity]].
    + apply elem_of_from_dict. eauto.
    + apply survives_pad_row; eauto.
Qed.

(** C7 (as the code has it). The rows of the table are the rows of the
    grid that stay, each behind the metadata values. A row stays only
    if its first cell in the grid is not empty, holds no letter and
    holds no run of two or more dashes, so is not made of dashes alone;
    the first grid cell of the table row is that cell without its
    spaces, which is not empty and holds no letter. Every grid row whose
    first cell is empty, made of dashes alone or holds a letter is
    dropped as a whole. *)
Theorem C7_rejected_first_cells_never_reach_table (Label_elets : list label) (o : outcome) :
  transform Label_elets = Ok o ->
  tb_rows (out_table o)
  = app (reverse (out_metadata o).*2) <$> (table_body (out_grid o)).*2 /\
  (forall k cells, (k, cells) ∈ table_body (out_grid o) ->
     exists s rest,
       (k, s :: rest) ∈ out_grid o /\
       s <> "" /\ all_dashes s = false /\ Py.has_dash_run s = false /\
       Py.has_letter s = false /\
       first_cell cells = CStr (Py.remove_spaces s) /\
       Py.remove_spaces s <> "" /\ Py.has_letter (Py.remove_spaces s) = false) /\
  (forall k s rest, (k, s :: rest) ∈ out_grid o ->
     s = "" \/ all_dashes s = true \/ Py.has_letter s = true ->
     k ∉ (table_body (out_grid o)).*1).
Proof.
  intros (d & t & md & Hc & Ht & Hg & Hm & Hf & Hn)%transform_Ok.
  apply normalize_Ok in Hn as (Hw & Hlen & Hins).
  apply insert_columns in Hins as [Hcols Hrows]. simpl in Hrows.
  split; [exact Hrows|]. split.
  - intros k cells (s & rest & Hin & Hs & ->)%elem_of_table_body; [|exact Hw].
    exists s, rest. rewrite (clean_first_pad_row _ _ _ Hs).
    pose proof Hs as Hs'. unfold rejected_first_cell in Hs'.
    apply orb_false_iff in Hs' as [[He Hd]%orb_false_iff Hl].
    apply bool_decide_eq_false in He.
    repeat split; try assumption; try reflexivity.
    + destruct (all_dashes s) eqn:Ha; [|reflexivity].
      apply all_dashes_dash_run in Ha. congruence.
    + rewrite Hg in Hin.
      destruct (sorted_rows_dict_cells d k (s :: rest) s Hin) as (p & Hp & Hps); [left|].
      pose proof (classify_texts _ _ _ Hc) as Htexts.
      rewrite Forall_forall in Htexts. destruct (Htexts p Hp) as [s0 Hs0].
      destruct (cell_text_head s0) as [Hnil|(c & r & Hcr & Hsp)]; [congruence|].
      rewrite <- Hps, Hs0, Hcr. now apply remove_spaces_head.
    + now apply remove_spaces_no_letter.
  - intros k s rest Hin Hbad (kc & Hk & Hkc)%list_elem_of_fmap.
    destruct kc as [k' cells]. simpl in Hk. subst k'.
    apply elem_of_table_body in Hkc as (s' & rest' & Hin' & Hs' & _); [|exact Hw].
    assert (s' :: rest' = s :: rest) as [= -> ->].
    { apply (NoDup_fst_functional (out_grid o) k); [|assumption..].
      rewrite Hg. apply sorted_rows_dict_NoDup. }
    apply rejected_first_cell_spec in Hbad. congruence.
Qed.

Lemma C7_witness :
  tb_rows sample_table
  = app (reverse (out_metadata sample_outcome).*2)
      <$> (table_body (out_grid sample_outcome)).*2 /\
  0 ∉ (table_body (out_grid sample_outcome)).*1.
Proof.
  destruct (C7_rejected_first_cells_never_reach_table sample_report sample_outcome)
    as (Hrows & _ & Hdrop); [vm_compute; reflexivity|].
  split; [exact Hrows|].
  apply (Hdrop 0 "Agent" []); [left | right; right; vm_compute; reflexivity].
Defined.

(** C7, the claim as stated fails: the first cell "- -" is neither
    empty nor a run of dashes nor lettered, so its row stays, and once
    the spaces are taken out the table holds a row whose first grid cell
    is made of dashes alone. *)
Lemma C7_spaced_dashes_reach_table :
  all_dashes "--" = true /\
  main "report.html" false spaced_dashes_report
  = (Ok tt, [WriteCsv "phone_data_report.html.csv"
               (mk_table ["Date"; "TIME"; "Agent Name"]
                         [[CDate sample_date; CStr "--"; CStr "John"]])]).
Proof. split; vm_compute; reflexivity. Qed.

(** * Further properties of the code *)

(** ** Splitting: [str.split] on the two separators of [css_to_dict] *)

Lemma is_char_eq (a c : ascii) : Py.is_char a c = true <-> a = c.
Proof.
  unfold Py.is_char, Py.ord. rewrite N.eqb_eq. split; [|now intros ->].
  intros H. rewrite <- (ascii_N_embedding a), <- (ascii_N_embedding c). now f_equal.
Qed.

Lemma prefix_nil (s : string) : String.prefix "" s = true.
Proof. now destruct s. Qed.

Lemma prefix_cons (a b : ascii) (s1 s2 : string) :
  String.prefix (String a s1) (String b s2) = Py.is_char a b && String.prefix s1 s2.
Proof.
  simpl. destruct (ascii_dec a b) as [->|Hne].
  - now rewrite (proj2 (is_char_eq b b) eq_refl).
  - destruct (Py.is_char a b) eqn:Hab; [|reflexivity].
    now apply is_char_eq in Hab.
Qed.

Lemma split_from_not_nil (sep : string) (skip : nat) (s : string) :
  Py.split_from sep skip s <> [].
Proof.
  revert skip. induction s as [|c r IH]; intros skip; [discriminate|].
  destruct skip as [|k]; [|apply (IH k)].
  cbn [Py.split_from].
  destruct (String.prefix sep (String c r)); [discriminate|].
  unfold Py.push_char. destruct (Py.split_from sep 0 r); discriminate.
Qed.

Lemma push_char_app (c : ascii) (l1 l2 : list string) :
  l1 <> [] -> Py.push_char c (l1 ++ l2) = Py.push_char c l1 ++ l2.
Proof. now destruct l1. Qed.

Lemma split_colon_step (c : ascii) (r : string) :
  Py.split ":" (String c r)
  = if Py.is_char ":" c then "" :: Py.split ":" r else Py.push_char c (Py.split ":" r).
Proof.
  unfold Py.split.
  change (Py.split_from ":" 0 (String c r))
    with (if String.prefix ":" (String c r)
          then "" :: Py.split_from ":" 0 r
          else Py.push_char c (Py.split_from ":" 0 r)).
  now rewrite prefix_cons, prefix_nil, andb_true_r.
Qed.

Lemma split_semi_step (c : ascii) (r : string) :
  Py.split_from "; " 0 (String c r)
  = if Py.is_char ";" c && Py.starts_with (Py.is_char " ") r
    then "" :: Py.split_from "; " 1 r
    else Py.push_char c (Py.split_from "; " 0 r).
Proof.
  change (Py.split_from "; " 0 (String c r))
    with (if String.prefix "; " (String c r)
          then "" :: Py.split_from "; " 1 r
          else Py.push_char c (Py.split_from "; " 0 r)).
  rewrite prefix_cons. destruct r as [|c' r']; [reflexivity|].
  now rewrite prefix_cons, prefix_nil, andb_true_r.
Qed.

Lemma free_of_cons (a c : ascii) (s : string) :
  free_of a (String c s) = true -> Py.is_char a c = false /\ free_of a s = true.
Proof.
  unfold free_of. simpl. rewrite negb_orb. intros [H1 H2]%andb_true_iff.
  split; [now apply negb_true_iff in H1 | exact H2].
Qed.

Lemma free_of_app (a : ascii) (s1 s2 : string) :
  free_of a s1 = true -> free_of a s2 = true -> free_of a (s1 +:+ s2) = true.
Proof.
  intros H1 H2. induction s1 as [|c s1 IH]; simpl; [exact H2|].
  apply free_of_cons in H1 as [Hc H1]. unfold free_of in *. simpl.
  rewrite Hc. simpl. now apply IH.
Qed.

(** a string without colon is one piece, and the text up to the first
    colon is the first piece *)
Lemma split_colon_free (a : string) :
  free_of ":" a = true -> Py.split ":" a = [a].
Proof.
  induction a as [|c a IH]; [reflexivity|].
  intros [Hc Ha]%free_of_cons. rewrite split_colon_step, Hc, (IH Ha). reflexivity.
Qed.

Lemma split_colon_first (a rest : string) :
  free_of ":" a = true ->
  Py.split ":" (a +:+ ":" +:+ rest) = a :: Py.split ":" rest.
Proof.
  induction a as [|c a IH].
  - intros _. change ("" +:+ ":" +:+ rest) with (String ":" rest).
    rewrite split_colon_step. reflexivity.
  - intros [Hc Ha]%free_of_cons.
    change (String c a +:+ ":" +:+ rest) with (String c (a +:+ ":" +:+ rest)).
    rewrite split_colon_step, Hc, (IH Ha). reflexivity.
Qed.

(** a string without semicolon is one declaration *)
Lemma split_semi_free (item : string) :
  free_of ";" item = true -> Py.split "; " item = [item].
Proof.
  unfold Py.split. induction item as [|c r IH]; [reflexivity|].
  intros [Hc Hr]%free_of_cons. rewrite split_semi_step, Hc, (IH Hr). reflexivity.
Qed.

(** the declarations of a list with one more declaration at its end *)
Lemma split_semi_app (item s : string) (skip : nat) :
  (skip <= String.length s)%nat ->
  Py.split_from "; " skip (s +:+ "; " +:+ item)
  = Py.split_from "; " skip s ++ Py.split "; " item.
Proof.
  revert skip. induction s as [|c r IH]; intros skip Hskip.
  - simpl in Hskip. assert (skip = 0%nat) as -> by lia.
    change ("" +:+ "; " +:+ item) with (String ";" (String " " item)).
    rewrite split_semi_step. reflexivity.
  - destruct skip as [|k].
    + change (String c r +:+ "; " +:+ item) with (String c (r +:+ "; " +:+ item)).
      rewrite !split_semi_step.
      assert (Py.starts_with (Py.is_char " ") (r +:+ "; " +:+ item)
              = Py.starts_with (Py.is_char " ") r) as -> by now destruct r.
      destruct (Py.is_char ";" c && Py.starts_with (Py.is_char " ") r) eqn:Hm.
      * rewrite IH; [reflexivity|].
        apply andb_true_iff in Hm as [_ Hm]. destruct r; [discriminate | simpl; lia].
      * rewrite IH by lia. apply push_char_app, split_from_not_nil.
    + simpl in Hskip. simpl. apply IH. lia.
Qed.

Lemma css_to_dict_step_blank (out_dict : gmap string string) :
  css_to_dict_step out_dict "" = Ok out_dict.
Proof. reflexivity. Qed.

Lemma css_to_dict_app (s item : string) :
  css_to_dict (s +:+ "; " +:+ item)
  = css_to_dict s ≫= for_each css_to_dict_step (Py.split "; " item).
Proof.
  unfold css_to_dict, Py.split at 1. rewrite split_semi_app by lia.
  apply for_each_app.
Qed.

(** X1. A separator at the end of the declaration list adds no entry:
    the piece after it is the empty string, which the loop passes over. *)
Theorem css_to_dict_trailing_separator (css_str : string) :
  css_to_dict (css_str +:+ "; ") = css_to_dict css_str.
Proof.
  change (css_str +:+ "; ") with (css_str +:+ "; " +:+ "").
  rewrite css_to_dict_app. now destruct (css_to_dict css_str).
Qed.

(** X2. A declaration put at the end of the list is decoded after the
    others and takes the place of an earlier one for the same property:
    when name and value hold neither colon nor semicolon, the dictionary
    is the one of the list before with the name bound to the value. *)
Theorem css_to_dict_later_declaration_wins
  (css_str k v : string) (css : gmap string string) :
  css_to_dict css_str = Ok css ->
  free_of ":" k = true -> free_of ":" v = true ->
  free_of ";" k = true -> free_of ";" v = true ->
  css_to_dict (css_str +:+ "; " +:+ k +:+ ":" +:+ v) = Ok (<[k := v]> css) /\
  getitem (<[k := v]> css) k = Ok v.
Proof.
  intros Hcss Hk Hv Hk' Hv'. split.
  - rewrite css_to_dict_app, Hcss, bind_Ok_l.
    rewrite split_semi_free by (apply free_of_app; [exact Hk' | exact Hv']).
    simpl. unfold css_to_dict_step.
    rewrite split_colon_first, split_colon_free by assumption.
    rewrite decide_False by discriminate. reflexivity.
  - unfold getitem. now rewrite lookup_insert_eq.
Qed.

Lemma css_to_dict_later_declaration_wins_witness :
  css_to_dict ("top:5px; left:10px" +:+ "; " +:+ "top" +:+ ":" +:+ "7px")
  = Ok (<["top" := "7px"]> (<["left" := "10px"]> (<["top" := "5px"]> ∅))) /\
  getitem (<["top" := "7px"]> (<["left" := "10px"]> (<["top" := "5px"]> ∅))) "top"
  = Ok "7px".
Proof.
  apply (css_to_dict_later_declaration_wins "top:5px; left:10px" "top" "7px");
    vm_compute; reflexivity.
Defined.

(** ** Fragment Classifier: what the loop returns *)

Lemma classify_step_text st (i : label) (s : string) st' :
  label_string i = Some s ->
  classify_step st i = Ok st' ->
  exists idx, coordinate_of i = Some idx /\
    st' = (st.1 ++ [(idx, cell_text s)],
           if header_styled i then st.2 ++ [title_tokens s] else st.2).
Proof.
  intros Hs. destruct st as [d t]. unfold classify_step, header_styled, coordinate_of.
  rewrite Hs.
  returns (css_to_dict (label_style i)) as css.
  returns (getitem css "font") as font.
  returns (get_index (label_style i)) as idx.
  intros [= <-]. exists idx. split; [reflexivity|].
  destruct (decide (font = bold_font)) as [Hf|Hf].
  - now rewrite bool_decide_eq_true_2.
  - now rewrite bool_decide_eq_false_2.
Qed.

Lemma classify_output_from (Label_elets : list label) d0 t0 d t :
  for_each classify_step Label_elets (d0, t0) = Ok (d, t) ->
  d = d0 ++ omap point_of Label_elets /\ t = t0 ++ omap tokens_of Label_elets.
Proof.
  revert d0 t0. induction Label_elets as [|i rest IH]; intros d0 t0.
  - simpl. intros [= <- <-]. now rewrite !app_nil_r.
  - change (for_each classify_step (i :: rest) (d0, t0))
      with (classify_step (d0, t0) i ≫= for_each classify_step rest).
    intros (st' & Hstep & Hrest)%bind_Ok.
    unfold point_of, tokens_of. simpl omap.
    destruct (label_string i) as [s|] eqn:Hs.
    + destruct (classify_step_text _ _ _ _ Hs Hstep) as (idx & Hidx & ->).
      simpl in Hrest. apply IH in Hrest as [-> ->].
      fold point_of tokens_of. rewrite Hidx. simpl.
      destruct (header_styled i); simpl; now rewrite <- !app_assoc.
    + rewrite (classify_step_absent _ _ Hs) in Hstep. injection Hstep as <-.
      simpl. apply IH in Hrest as [-> ->]. split; reflexivity.
Qed.

(** X3. When the loop over the elements ends well, its two lists hold,
    in document order, one data point for every element with text (its
    coordinate and its trimmed text, whether bold or not) and one token
    list for every element with text in the bold header font. *)
Theorem classify_output (Label_elets : list label) d t :
  classify Label_elets = Ok (d, t) ->
  d = omap point_of Label_elets /\ t = omap tokens_of Label_elets.
Proof. intros H. now apply classify_output_from in H. Qed.

Lemma classify_output_witness :
  [((0, 50), "Agent"); ((20, 0), "Date:")]
  = omap point_of [header_label "0" "50" "Agent"; mk_label "x" None;
                   data_label "20" "0" " Date: "] /\
  [["Agent"]]
  = omap tokens_of [header_label "0" "50" "Agent"; mk_label "x" None;
                    data_label "20" "0" " Date: "].
Proof.
  apply (classify_output [header_label "0" "50" "Agent"; mk_label "x" None;
                          data_label "20" "0" " Date: "]).
  vm_compute. reflexivity.
Defined.

Lemma omap_all_None {A B} (f : A -> option B) (l : list A) :
  (forall x, x ∈ l -> f x = None) -> omap f l = [].
Proof.
  induction l as [|x l IH]; intros H; [reflexivity|]. simpl.
  rewrite (H x) by left. apply IH. intros y Hy. apply H. now right.
Qed.

(** X4. A document in which no element with text has the bold header
    font leaves the header list empty: [max] is called on no value, the
    run ends with [ValueError] and nothing is written. The empty
    document is such a document. *)
Theorem no_header_element_aborts
  (TARGET_FILE : string) (useSQL : bool) (Label_elets : list label) d t :
  classify Label_elets = Ok (d, t) ->
  (forall i, i ∈ Label_elets -> text_present i = true -> header_styled i = false) ->
  main TARGET_FILE useSQL Label_elets
  = (Err (ValueError "max() arg is an empty sequence"), []).
Proof.
  intros Hc Hno. destruct (classify_output_from _ _ _ _ _ Hc) as [_ Ht].
  rewrite omap_all_None in Ht.
  - simpl in Ht. subst t. unfold main, transform. rewrite Hc. reflexivity.
  - intros i Hi. unfold tokens_of. specialize (Hno i Hi). unfold text_present in Hno.
    destruct (label_string i); [|reflexivity]. simpl. now rewrite Hno.
Qed.

Lemma no_header_element_aborts_witness :
  main "report.html" false headless_report
  = (Err (ValueError "max() arg is an empty sequence"), []) /\
  main "report.html" true []
  = (Err (ValueError "max() arg is an empty sequence"), []).
Proof.
  split.
  - eapply (no_header_element_aborts "report.html" false headless_report).
    + vm_compute. reflexivity.
    + intros i Hi _. unfold headless_report in Hi.
      repeat (apply elem_of_cons in Hi as [->|Hi]; [vm_compute; reflexivity|]).
      now apply elem_of_nil in Hi.
  - eapply (no_header_element_aborts "report.html" true []).
    + vm_compute. reflexivity.
    + intros i Hi. now apply elem_of_nil in Hi.
Defined.

(** X5. Every element with text must declare a font: when the style of
    one decodes but has no [font] property, the run ends with
    [KeyError] for that key, even if its coordinates are well formed,
    and nothing is written. *)
Theorem missing_font_aborts
  (TARGET_FILE : string) (useSQL : bool) (before after : list label) (i : label)
  (s : string) st (css : gmap string string) :
  classify before = Ok st ->
  label_string i = Some s ->
  css_to_dict (label_style i) = Ok css ->
  css !! "font" = None ->
  main TARGET_FILE useSQL (before ++ i :: after) = (Err (KeyError "font"), []).
Proof.
  intros Hb Hs Hcss Hfont.
  assert (classify (before ++ i :: after) = Err (KeyError "font")) as Hc.
  { unfold classify in *. rewrite for_each_app, Hb, bind_Ok_l.
    change (for_each classify_step (i :: after) st)
      with (classify_step st i ≫= for_each classify_step after).
    destruct st as [d t]. unfold classify_step. rewrite Hs, Hcss, bind_Ok_l.
    unfold getitem. rewrite Hfont. reflexivity. }
  unfold main, transform. now rewrite Hc.
Qed.

Lemma missing_font_aborts_witness :
  main "report.html" false fontless_report = (Err (KeyError "font"), []).
Proof.
  eapply (missing_font_aborts "report.html" false [header_label "0" "50" "Agent"]
            [data_label "30" "0" "09:15"] (mk_label "top:20px; left:0px" (Some "Date:"))).
  - vm_compute. reflexivity.
  - reflexivity.
  - vm_compute. reflexivity.
  - vm_compute. reflexivity.
Defined.

(** ** Metadata Extractor: which rows count and what they record *)

Lemma metadata_cell_no_label (val : list string) md (i : string) :
  Py.re_match_label i = false -> metadata_cell val md i = Ok md.
Proof. intros Hi. unfold metadata_cell. now rewrite Hi. Qed.

Lemma metadata_cells_no_label (val cells : list string) md :
  has_label_cell cells = false ->
  for_each (metadata_cell val) cells md = Ok md.
Proof.
  unfold has_label_cell. induction cells as [|i cells IH]; [reflexivity|].
  simpl existsb. intros [Hi Hrest]%orb_false_iff.
  change (for_each (metadata_cell val) (i :: cells) md)
    with (metadata_cell val md i ≫= for_each (metadata_cell val) cells).
  rewrite (metadata_cell_no_label val md i Hi), bind_Ok_l. now apply IH.
Qed.

Lemma metadata_row_no_label md (k : Z) (val : list string) :
  has_label_cell val = false -> metadata_row md (k, val) = Ok md.
Proof.
  intros Hno. unfold metadata_row. simpl.
  destruct (length val =? 1)%nat eqn:Hlen; [|now apply metadata_cells_no_label].
  destruct val as [|v0 [|v1 rest]]; try discriminate. simpl.
  unfold has_label_cell in Hno. simpl in Hno. rewrite orb_false_r in Hno.
  now rewrite Hno.
Qed.

Lemma metadata_rows_with_label (rows : list (Z * list string)) md :
  for_each metadata_row rows md
  = for_each metadata_row (filter (fun r => has_label_cell r.2 = true) rows) md.
Proof.
  revert md. induction rows as [|[k val] rows IH]; intros md; [reflexivity|].
  rewrite filter_cons. simpl.
  destruct (decide (has_label_cell val = true)) as [Hl|Hl].
  - simpl. destruct (metadata_row md (k, val)); simpl; [apply IH | reflexivity].
  - apply not_true_is_false in Hl. rewrite (metadata_row_no_label md k val Hl).
    simpl. apply IH.
Qed.

(** X6. The rows in which no cell matches the label pattern do not
    matter to the record: the extractor gives for the grid what it gives
    for the grid without them, the same record or the same exception. *)
Theorem extract_metadata_ignores_plain_rows (rows : list (Z * list string)) :
  extract_metadata rows
  = extract_metadata (filter (fun r => has_label_cell r.2 = true) rows).
Proof. apply metadata_rows_with_label. Qed.

(** X7. The report date is mandatory: when the header is found but no
    cell of the grid matches the label pattern, the record stays empty,
    the look-up of "Date" raises [KeyError] and nothing is written. *)
Theorem no_label_cell_aborts
  (TARGET_FILE : string) (useSQL : bool) (Label_elets : list label) d t titles :
  classify Label_elets = Ok (d, t) ->
  final_col_titles t = Ok titles ->
  (forall k val, (k, val) ∈ sorted_rows_dict d -> has_label_cell val = false) ->
  main TARGET_FILE useSQL Label_elets = (Err (KeyError "Date"), []).
Proof.
  intros Hc Ht Hno.
  assert (extract_metadata (sorted_rows_dict d) = Ok []) as Hm.
  { unfold extract_metadata. rewrite metadata_rows_with_label, filter_none; [reflexivity|].
    intros [k val] Hin. simpl. rewrite (Hno k val Hin). discriminate. }
  unfold main, transform. rewrite Hc. simpl. rewrite Ht. simpl. now rewrite Hm.
Qed.

Lemma no_label_cell_aborts_witness :
  main "report.html" false dateless_report = (Err (KeyError "Date"), []).
Proof.
  eapply (no_label_cell_aborts "report.html" false dateless_report).
  - vm_compute. reflexivity.
  - vm_compute. reflexivity.
  - intros k val Hin. vm_compute in Hin.
    repeat (apply elem_of_cons in Hin as [[= -> ->]|Hin]; [vm_compute; reflexivity|]).
    now apply elem_of_nil in Hin.
Defined.

Lemma setitem_lookup {V} (d : list (string * V)) (k : string) (v : V) :
  lookup_key (setitem d k v) k = Ok v.
Proof.
  induction d as [|[k' v'] d IH]; simpl.
  - now rewrite decide_True.
  - destruct (decide (k' = k)) as [->|Hne]; simpl.
    + now rewrite decide_True.
    + now rewrite decide_False.
Qed.

Lemma setitem_lookup_ne {V} (d : list (string * V)) (k k' : string) (v : V) :
  k <> k' -> lookup_key (setitem d k v) k' = lookup_key d k'.
Proof.
  intros Hne. induction d as [|[k0 v0] d IH]; simpl.
  - now rewrite decide_False.
  - destruct (decide (k0 = k)) as [->|Hk0]; simpl.
    + now rewrite !decide_False.
    + destruct (decide (k0 = k')); [reflexivity | exact IH].
Qed.

Lemma setitem_keys_present {V} (d : list (string * V)) (k : string) (v : V) :
  k ∈ d.*1 -> (setitem d k v).*1 = d.*1.
Proof.
  induction d as [|[k' v'] d IH]; simpl; [now intros ?%elem_of_nil|].
  destruct (decide (k' = k)) as [->|Hne]; [reflexivity|].
  intros [?|Hin]%elem_of_cons; [congruence|]. simpl. f_equal. now apply IH.
Qed.

Lemma setitem_keys_fresh {V} (d : list (string * V)) (k : string) (v : V) :
  k ∉ d.*1 -> (setitem d k v).*1 = d.*1 ++ [k].
Proof.
  induction d as [|[k' v'] d IH]; simpl; [reflexivity|].
  intros [Hne Hin]%not_elem_of_cons.
  rewrite decide_False by congruence. simpl. f_equal. now apply IH.
Qed.

Lemma append_nil_r (s : string) : s +:+ "" = s.
Proof.
  induction s as [|c s IH]; [reflexivity|].
  change (String c s +:+ "") with (String c (s +:+ "")). now f_equal.
Qed.

(** the pieces of a cell between its colons *)
Lemma split_colon_second (a b tail : string) :
  free_of ":" a = true -> free_of ":" b = true ->
  tail = "" \/ (exists rest, tail = ":" +:+ rest) ->
  exists more, Py.split ":" (a +:+ ":" +:+ b +:+ tail) = a :: b :: more.
Proof.
  intros Ha Hb Htail. rewrite split_colon_first by exact Ha.
  destruct Htail as [->|[rest ->]].
  - exists []. f_equal.
    rewrite append_nil_r. now apply split_colon_free.
  - exists (Py.split ":" rest). f_equal. now apply split_colon_first.
Qed.

Lemma metadata_row_one_cell md (k : Z) (a b tail : string) :
  free_of ":" a = true -> free_of ":" b = true ->
  tail = "" \/ (exists rest, tail = ":" +:+ rest) ->
  Py.re_match_label (a +:+ ":" +:+ b +:+ tail) = true ->
  metadata_row md (k, [a +:+ ":" +:+ b +:+ tail])
  = Ok (setitem md (Py.strip a) (Py.strip b)).
Proof.
  intros Ha Hb Htail Hm. unfold metadata_row. simpl. rewrite Hm.
  destruct (split_colon_second a b tail Ha Hb Htail) as [more ->]. reflexivity.
Qed.

(** X8. From a row of one cell that matches the label pattern the
    extractor records the trimmed text before the first colon as key
    and, as value, the trimmed text between the first colon and the
    second one, or the end of the cell when there is no second colon;
    what follows a second colon is not recorded. *)
Theorem one_cell_row_records_up_to_second_colon
  md (k : Z) (a b tail : string) :
  free_of ":" a = true -> free_of ":" b = true ->
  tail = "" \/ (exists rest, tail = ":" +:+ rest) ->
  Py.re_match_label (a +:+ ":" +:+ b +:+ tail) = true ->
  metadata_row md (k, [a +:+ ":" +:+ b +:+ tail])
  = Ok (setitem md (Py.strip a) (Py.strip b)).
Proof. apply metadata_row_one_cell. Qed.

Lemma one_cell_row_records_up_to_second_colon_witness :
  metadata_row [("Skill", "Sales")] (20, ["Split : Service " +:+ ":" +:+ "ignored"])
  = Ok [("Skill", "Sales"); ("Split", "Service")].
Proof.
  apply (one_cell_row_records_up_to_second_colon
           [("Skill", "Sales")] 20 "Split " " Service " (":" +:+ "ignored")).
  - vm_compute. reflexivity.
  - vm_compute. reflexivity.
  - right. eexists. reflexivity.
  - vm_compute. reflexivity.
Defined.

(** X9. A label that comes again in a later row of one cell overwrites:
    the record then holds the later value under that key, the key keeps
    the place it had, and a key not seen before goes to the end. *)
Theorem repeated_label_last_value_wins
  (rows : list (Z * list string)) md (k : Z) (a b : string) :
  extract_metadata rows = Ok md ->
  free_of ":" a = true -> free_of ":" b = true ->
  Py.re_match_label (a +:+ ":" +:+ b) = true ->
  exists md',
    extract_metadata (rows ++ [(k, [a +:+ ":" +:+ b])]) = Ok md' /\
    lookup_key md' (Py.strip a) = Ok (Py.strip b) /\
    (forall k', k' <> Py.strip a -> lookup_key md' k' = lookup_key md k') /\
    (Py.strip a ∈ md.*1 -> md'.*1 = md.*1) /\
    (Py.strip a ∉ md.*1 -> md'.*1 = md.*1 ++ [Py.strip a]).
Proof.
  intros Hrows Ha Hb Hm. exists (setitem md (Py.strip a) (Py.strip b)).
  split; [|split; [|split; [|split]]].
  - unfold extract_metadata in *. rewrite for_each_app, Hrows, bind_Ok_l.
    change (for_each metadata_row [(k, [a +:+ ":" +:+ b])] md)
      with (metadata_row md (k, [a +:+ ":" +:+ b]) ≫= Ok).
    assert (a +:+ ":" +:+ b = a +:+ ":" +:+ b +:+ "") as Heq
      by now rewrite append_nil_r.
    rewrite Heq, metadata_row_one_cell; auto. now rewrite <- Heq.
  - apply setitem_lookup.
  - intros k' Hk'. apply setitem_lookup_ne. congruence.
  - apply setitem_keys_present.
  - apply setitem_keys_fresh.
Qed.

Lemma repeated_label_last_value_wins_witness :
  exists md',
    extract_metadata ([(10, ["Skill: Sales"]); (20, ["Split: 4"])] ++ [(30, ["Skill" +:+ ":" +:+ " Billing"])])
    = Ok md' /\
    lookup_key md' (Py.strip "Skill") = Ok (Py.strip " Billing") /\
    (forall k', k' <> Py.strip "Skill" ->
       lookup_key md' k' = lookup_key [("Skill", "Sales"); ("Split", "4")] k') /\
    (Py.strip "Skill" ∈ [("Skill", "Sales"); ("Split", "4")].*1 ->
     md'.*1 = [("Skill", "Sales"); ("Split", "4")].*1) /\
    (Py.strip "Skill" ∉ [("Skill", "Sales"); ("Split", "4")].*1 ->
     md'.*1 = [("Skill", "Sales"); ("Split", "4")].*1 ++ [Py.strip "Skill"]).
Proof.
  apply (repeated_label_last_value_wins
           [(10, ["Skill: Sales"]); (20, ["Split: 4"])]
           [("Skill", "Sales"); ("Split", "4")] 30 "Skill" " Billing");
    vm_compute; reflexivity.
Defined.

(** *** When the extractor raises *)

Lemma label_from_colon (seen : bool) (s : string) :
  Py.label_from seen s = true ->
  exists a rest, s = a +:+ ":" +:+ rest /\ free_of ":" a = true.
Proof.
  revert seen. induction s as [|c s IH]; intros seen; simpl; [discriminate|].
  destruct (Py.is_char ":" c) eqn:Hc.
  - intros _. apply is_char_eq in Hc as <-. now exists "", s.
  - destruct (Py.in_label_class c); [|discriminate].
    intros (a & rest & -> & Ha)%IH. exists (String c a), rest.
    split; [reflexivity|]. unfold free_of in *. simpl. now rewrite Hc.
Qed.

(** a cell that matches the label pattern splits in two pieces at least *)
Lemma label_cell_pieces (s : string) :
  Py.re_match_label s = true ->
  exists k v more, Py.split ":" s = k :: v :: more.
Proof.
  intros (a & rest & -> & Ha)%label_from_colon.
  rewrite split_colon_first by exact Ha.
  destruct (Py.split ":" rest) as [|v more] eqn:Hrest.
  - now apply split_from_not_nil in Hrest.
  - eauto.
Qed.

Lemma for_each_all_ok {A S} (body : S -> A -> result S) (xs : list A) (s : S) :
  (forall s' x, x ∈ xs -> exists s'', body s' x = Ok s'') ->
  exists s', for_each body xs s = Ok s'.
Proof.
  revert s. induction xs as [|x xs IH]; intros s Hall; simpl; [eauto|].
  destruct (Hall s x) as [s1 ->]; [left|]. simpl.
  apply IH. intros s' y Hy. apply Hall. now right.
Qed.

Lemma metadata_cell_in_range (val : list string) md (i : string) :
  (Py.re_match_label i = true -> (list_index i val + 1 < length val)%nat) ->
  exists md', metadata_cell val md i = Ok md'.
Proof.
  intros Hi. unfold metadata_cell. destruct (Py.re_match_label i); [|eauto].
  destruct (list_item_in_range val (list_index i val + 1)) as [v ->]; [auto|].
  simpl. eauto.
Qed.

Lemma snoc_or_nil {A} (l : list A) : l = [] \/ exists init last, l = init ++ [last].
Proof. destruct l as [|x l] using rev_ind; [now left | right; eauto]. Qed.

(** a row whose last cell, if it is a label, stands earlier in the row
    too lets its turn of the loop end well *)
Lemma metadata_row_ok md (k : Z) (val : list string) :
  (forall init last, val = init ++ [last] -> init <> [] ->
     Py.re_match_label last = true -> last ∈ init) ->
  exists md', metadata_row md (k, val) = Ok md'.
Proof.
  intros Hlast. unfold metadata_row. simpl.
  destruct (length val =? 1)%nat eqn:Hlen.
  - destruct val as [|v0 [|v1 rest]]; try discriminate. simpl.
    destruct (Py.re_match_label v0) eqn:Hm; [|eauto].
    destruct (label_cell_pieces v0 Hm) as (a & v & more & ->). simpl. eauto.
  - apply for_each_all_ok. intros md1 i Hi. apply metadata_cell_in_range. intros Hm.
    destruct (snoc_or_nil val) as [->|(init & last & ->)]; [now apply elem_of_nil in Hi|].
    rewrite length_app. simpl.
    destruct (decide (i ∈ init)) as [Hin|Hin].
    + rewrite list_index_app_l by exact Hin. apply list_index_elem in Hin. lia.
    + apply elem_of_app in Hi as [? | ->%list_elem_of_singleton]; [contradiction|].
      destruct Hin. apply (Hlast init last); [reflexivity| |exact Hm].
      intros ->. apply Nat.eqb_neq in Hlen. now apply Hlen.
Qed.

(** X10. The metadata loop raises in one case only: it ends well exactly
    when every row of several cells whose last cell matches the label
    pattern holds an equal cell earlier in the row. Rows of one cell
    never raise, since a cell that matches holds a colon and so splits
    in two pieces at least. *)
Theorem extract_metadata_ends_well_iff (rows : list (Z * list string)) :
  (exists md, extract_metadata rows = Ok md) <->
  (forall k init last, (k, init ++ [last]) ∈ rows -> init <> [] ->
     Py.re_match_label last = true -> last ∈ init).
Proof.
  split.
  - intros [md Hmd] k init last Hin Hinit Hm.
    destruct (decide (last ∈ init)) as [Hl|Hl]; [exact Hl|].
    apply list_elem_of_split in Hin as (rows1 & rows2 & ->).
    destruct (for_each_raises metadata_row rows1 rows2 (k, init ++ [last]) []) as [e He].
    + intros md0. exists IndexError. now apply metadata_row_trailing_label.
    + unfold extract_metadata in Hmd. congruence.
  - intros Hall. apply for_each_all_ok. intros md [k val] Hin.
    apply metadata_row_ok. intros init last -> Hinit Hm. now apply (Hall k init last).
Qed.

Lemma extract_metadata_ends_well_iff_witness :
  exists md, extract_metadata [(20, ["Date:"; "x"]); (30, ["Skill:"; "Skill:"])] = Ok md.
Proof.
  apply (proj2 (extract_metadata_ends_well_iff
                  [(20, ["Date:"; "x"]); (30, ["Skill:"; "Skill:"])])).
  intros k init last Hin Hinit Hm.
  apply elem_of_cons in Hin as [[= -> Heq]|Hin].
  - apply (app_inj_tail init ["Date:"]) in Heq as [-> ->]. vm_compute in Hm. discriminate.
  - apply list_elem_of_singleton in Hin as [= -> Heq].
    apply (app_inj_tail init ["Skill:"]) in Heq as [-> ->]. left.
Defined.

(** ** Header Reconstructor: how many names *)

Lemma foldr_max_ge (l : list nat) (x : nat) :
  x ∈ l -> (x <= foldr Nat.max 0 l)%nat.
Proof.
  induction l as [|y l IH]; [now intros ?%elem_of_nil|].
  intros [->|Hx]%elem_of_cons; [apply Nat.le_max_l|].
  etrans; [now apply IH | apply Nat.le_max_r].
Qed.

Lemma foldr_max_le (l : list nat) (m : nat) :
  (forall x, x ∈ l -> (x <= m)%nat) -> (foldr Nat.max 0 l <= m)%nat.
Proof.
  induction l as [|y l IH]; intros H; [simpl; lia|].
  apply Nat.max_lub; [apply H; left | apply IH; intros x Hx; apply H; now right].
Qed.

Lemma spec_survives_length (m : nat) (tokens : list string) :
  spec_survives m tokens = true -> (m <= length tokens)%nat.
Proof.
  unfold spec_survives. intros [_ Hlen]%andb_true_iff.
  apply negb_true_iff, Nat.ltb_ge in Hlen. exact Hlen.
Qed.

(** X11. When some token list other than the one of the empty text is
    as long as any, the header is built and has one name for each token
    of such a list, after "TIME": its length is one more than the
    longest token list, whether one or two or more lists are that long. *)
Theorem final_col_titles_length (_col_titles : list (list string)) (longest : list string) :
  longest ∈ _col_titles ->
  longest <> [""] ->
  (forall tokens, tokens ∈ _col_titles -> (length tokens <= length longest)%nat) ->
  exists names,
    final_col_titles _col_titles = Ok ("TIME" :: names) /\
    length names = length longest.
Proof.
  intros Hin Hne Hmax.
  assert (foldr Nat.max 0%nat (length <$> _col_titles) = length longest) as Hm.
  { apply Nat.le_antisymm.
    - apply foldr_max_le. intros x (tokens & -> & Ht)%list_elem_of_fmap. now apply Hmax.
    - apply foldr_max_ge, list_elem_of_fmap. eauto. }
  unfold final_col_titles.
  assert (max_title_list_length _col_titles = Ok (length longest)) as ->.
  { unfold max_title_list_length. destruct _col_titles; [now apply elem_of_nil in Hin|].
    now rewrite Hm. }
  rewrite bind_Ok_l, select_titles_take by (simpl; lia). rewrite app_nil_l.
  eexists. split; [reflexivity|].
  rewrite column_names_of_survivors by (rewrite length_take; lia).
  set (S := filter (fun t => spec_survives (length longest) t = true) _col_titles).
  assert (forall t, t ∈ S -> length t = length longest) as Hlen.
  { intros t [Hs Ht]%list_elem_of_filter. apply spec_survives_length in Hs.
    specialize (Hmax t Ht). lia. }
  assert (longest ∈ S) as HS.
  { apply list_elem_of_filter. split; [|exact Hin].
    apply spec_survives_true; [exact Hne | apply Nat.ltb_irrefl]. }
  destruct S as [|a [|b rest]]; simpl.
  - now apply elem_of_nil in HS.
  - apply Hlen. left.
  - rewrite length_zip_with, (Hlen a), (Hlen b); [lia | right; left | left].
Qed.

Lemma final_col_titles_length_witness :
  exists names,
    final_col_titles [["Agent"; "Calls"]; [""]; ["Totals"]; ["Name"; "Taken"]]
    = Ok ("TIME" :: names) /\
    length names = length ["Name"; "Taken"].
Proof.
  apply (final_col_titles_length
           [["Agent"; "Calls"]; [""]; ["Totals"]; ["Name"; "Taken"]] ["Name"; "Taken"]).
  - do 3 right. left.
  - discriminate.
  - intros tokens Hin.
    repeat (apply elem_of_cons in Hin as [->|Hin]; [simpl; lia|]).
    now apply elem_of_nil in Hin.
Defined.

(** ** Grid Assembler: the shape of the grid *)

(** X12. Every row of the grid has at least one cell; its cells are the
    texts of the data points on its row coordinate, all of them and no
    other, in order of column coordinate from left to right. *)
Theorem grid_row_shape (d : list data_point) (k : Z) (val : list string) :
  (k, val) ∈ sorted_rows_dict d ->
  exists points : list data_point,
    val = snd <$> points /\
    val <> [] /\
    points ≡ₚ filter (fun p => row_of p = k) d /\
    Sorted (fun p q => col_of p <= col_of q) points.
Proof.
  rewrite sorted_rows_dict_rows.
  intros (i & [= -> ->] & Hi)%list_elem_of_fmap.
  exists (sort_by_col (filter (fun p => row_of p = i) d)).
  split; [reflexivity|]. split; [|split].
  - apply elem_of_row_indices_list, list_elem_of_fmap in Hi as (p & Hk & Hp).
    assert (p ∈ sort_by_col (filter (fun q => row_of q = i) d)) as Hin.
    { rewrite sort_by_col_perm. apply list_elem_of_filter. split; [now symmetry | exact Hp]. }
    intros Hnil. apply fmap_nil_inv in Hnil. rewrite Hnil in Hin. now apply elem_of_nil in Hin.
  - apply sort_by_col_perm.
  - apply sort_by_col_sorted.
Qed.

Lemma grid_row_shape_witness :
  exists points : list data_point,
    ["09:16"; "Jane"] = snd <$> points /\
    ["09:16"; "Jane"] <> [] /\
    points ≡ₚ filter (fun p => row_of p = 40)
                [((30, 0), "09:15"); ((40, 50), "Jane"); ((40, 0), "09:16")] /\
    Sorted (fun p q => col_of p <= col_of q) points.
Proof.
  apply (grid_row_shape [((30, 0), "09:15"); ((40, 50), "Jane"); ((40, 0), "09:16")]
           40 ["09:16"; "Jane"]).
  vm_compute. right. left.
Defined.

Lemma rows_partition (keys : list Z) (d : list data_point) :
  NoDup keys ->
  (forall p, p ∈ d -> row_of p ∈ keys) ->
  concat ((fun i => filter (fun p => row_of p = i) d) <$> keys) ≡ₚ d.
Proof.
  revert d. induction keys as [|i keys IH]; intros d Hnd Hall.
  - destruct d as [|p d]; [reflexivity|].
    specialize (Hall p ltac:(left)). now apply elem_of_nil in Hall.
  - apply NoDup_cons in Hnd as [Hi Hnd]. rewrite fmap_cons. simpl concat.
    etrans; [|apply (filter_app_complement (fun p => row_of p = i) d)].
    apply Permutation_app_head.
    assert ((fun j => filter (fun p => row_of p = j) d) <$> keys
            = (fun j => filter (fun p => row_of p = j)
                          (filter (fun p => ~ row_of p = i) d)) <$> keys) as ->.
    { apply list_fmap_ext. intros n j Hj. symmetry.
      rewrite list_filter_filter. apply list_filter_iff. intros p. split.
      - now intros [Hp _].
      - intros Hp. split; [exact Hp|]. intros Hpi.
        apply Hi. apply list_elem_of_lookup_2 in Hj. congruence. }
    apply IH; [exact Hnd|].
    intros p [Hp Hin]%list_elem_of_filter.
    specialize (Hall p Hin). apply elem_of_cons in Hall as [?|?]; [contradiction | assumption].
Qed.

Lemma rows_texts (keys : list Z) (d : list data_point) :
  concat ((fun i => (i, snd <$> sort_by_col (filter (fun j => row_of j = i) d))) <$> keys).*2
  ≡ₚ snd <$> concat ((fun i => filter (fun p => row_of p = i) d) <$> keys).
Proof.
  induction keys as [|i keys IH]; [reflexivity|].
  rewrite !fmap_cons. simpl concat. rewrite fmap_app, IH.
  apply Permutation_app_tail. simpl. now rewrite sort_by_col_perm.
Qed.

(** X13. The assembler loses no data point and makes none twice: the
    cells of the grid, all rows taken together, are the texts of the
    data points, each as often as it occurs. *)
Theorem grid_holds_every_data_point (d : list data_point) :
  concat (sorted_rows_dict d).*2 ≡ₚ snd <$> d.
Proof.
  rewrite sorted_rows_dict_rows, rows_texts.
  apply fmap_Permutation, rows_partition.
  - apply row_indices_list_NoDup.
  - intros p Hp. apply elem_of_row_indices_list, list_elem_of_fmap. eauto.
Qed.

(** ** Table Normalizer: what it keeps and what it requires *)

Lemma StronglySorted_sublist {A} (R : relation A) (l1 l2 : list A) :
  l1 `sublist_of` l2 -> StronglySorted R l2 -> StronglySorted R l1.
Proof.
  induction 1 as [|x l1 l2 Hsub IH|x l1 l2 Hsub IH]; intros Hs.
  - constructor.
  - apply StronglySorted_inv in Hs as [Hs Hall]. constructor; [now apply IH|].
    rewrite Forall_forall in *. intros y Hy. apply Hall. now apply (elem_of_sublist l1).
  - apply StronglySorted_inv in Hs as [Hs _]. now apply IH.
Qed.

Lemma fmap_keys {A B} (f : A -> B) (l : list (Z * A)) :
  ((fun r => (r.1, f r.2)) <$> l).*1 = l.*1.
Proof. induction l as [|[k a] l IH]; [reflexivity|]. rewrite !fmap_cons. now f_equal. Qed.

Lemma table_body_keys_sublist (rows : list (Z * list string)) :
  (table_body rows).*1 `sublist_of` rows.*1.
Proof.
  unfold table_body, clean_rows. rewrite fmap_keys.
  etrans; [apply fmap_sublist, sublist_filter|]. rewrite !fmap_keys.
  etrans; [apply fmap_sublist, sublist_filter|].
  unfold from_dict. now rewrite fmap_keys.
Qed.

(** X14. The normalizer drops rows but never moves one: the rows of the
    table, read from top to bottom, come from grid rows of strictly
    ascending row coordinate. There is a list of row coordinates, a
    subsequence of those of the grid and strictly ascending, whose k-th
    entry is the coordinate of the grid row that the k-th row of the
    table is made of (the metadata values, the first cell without its
    spaces, the other cells, the padding). *)
Theorem table_rows_keep_grid_order (Label_elets : list label) d t (o : outcome) :
  classify Label_elets = Ok (d, t) ->
  transform Label_elets = Ok o ->
  exists keys : list Z,
    keys `sublist_of` (sorted_rows_dict d).*1 /\
    Sorted Z.lt keys /\
    Forall2
      (fun k r =>
         exists s rest,
           (k, s :: rest) ∈ sorted_rows_dict d /\
           r = reverse (out_metadata o).*2
               ++ CStr (Py.remove_spaces s)
                  :: (CStr <$> rest)
                     ++ replicate (frame_width (sorted_rows_dict d) - S (length rest)) CMissing)
      keys (tb_rows (out_table o)).
Proof.
  intros Hcd (d' & t' & md & Hc & Ht & Hg & Hm & Hf & Hn)%transform_Ok.
  rewrite Hcd in Hc. injection Hc as <- <-. rewrite Hg in Hn.
  apply normalize_Ok in Hn as (Hw & _ & Hins).
  apply insert_columns in Hins as [_ Hrows]. simpl in Hrows.
  exists (table_body (sorted_rows_dict d)).*1. split; [|split].
  - apply table_body_keys_sublist.
  - apply StronglySorted_Sorted.
    apply (StronglySorted_sublist _ _ _ (table_body_keys_sublist (sorted_rows_dict d))).
    apply Sorted_StronglySorted; [intros x y z; lia|].
    rewrite sorted_rows_dict_keys. apply row_indices_list_ascending.
  - rewrite Hrows. fold (table_body (sorted_rows_dict d)).
    apply Forall2_fmap_l, Forall2_fmap_r, Forall2_fmap_r, Forall_Forall2_diag, Forall_forall.
    intros [k cells] (s & rest & Hin & Hs & ->)%elem_of_table_body; [|exact Hw].
    exists s, rest. split; [exact Hin|]. simpl. f_equal. now apply clean_first_pad_row.
Qed.

Lemma table_rows_keep_grid_order_witness :
  exists keys : list Z,
    keys `sublist_of` (out_grid sample_outcome).*1 /\
    Sorted Z.lt keys /\
    Forall2
      (fun k r =>
         exists s rest,
           (k, s :: rest) ∈ out_grid sample_outcome /\
           r = reverse (out_metadata sample_outcome).*2
               ++ CStr (Py.remove_spaces s)
                  :: (CStr <$> rest)
                     ++ replicate (frame_width (out_grid sample_outcome) - S (length rest))
                          CMissing)
      keys (tb_rows sample_table).
Proof.
  apply (table_rows_keep_grid_order sample_report
           [((0, 50), "Agent"); ((5, 50), "Name"); ((20, 0), "Date:");
            ((20, 50), "10:00 AM Mon Jan 01, 2024"); ((30, 0), "09:15");
            ((30, 50), "John"); ((40, 50), "Jane"); ((40, 0), "09:16")]
           [["Agent"]; ["Name"]] sample_outcome);
    vm_compute; reflexivity.
Defined.

(** X15. In a row that stays the normalizer touches the first cell
    only: the other cells are those of the grid row, unchanged and in
    place, and a row shorter than the widest row of the grid is filled
    at its end with missing values up to that width. *)
Theorem normalizer_changes_first_cell_only
  (Label_elets : list label) (o : outcome) (k : Z) (cells : list cell) :
  transform Label_elets = Ok o ->
  (k, cells) ∈ table_body (out_grid o) ->
  exists s rest,
    (k, s :: rest) ∈ out_grid o /\
    cells = CStr (Py.remove_spaces s)
            :: (CStr <$> rest)
               ++ replicate (frame_width (out_grid o) - S (length rest)) CMissing.
Proof.
  intros (d & t & md & Hc & Ht & Hg & Hm & Hf & Hn)%transform_Ok.
  apply normalize_Ok in Hn as (Hw & _ & _).
  intros (s & rest & Hin & Hs & ->)%elem_of_table_body; [|exact Hw].
  exists s, rest. split; [exact Hin|]. now apply clean_first_pad_row.
Qed.

Lemma normalizer_changes_first_cell_only_witness :
  exists s rest,
    (30, s :: rest) ∈ out_grid skill_outcome /\
    [CStr "09:15"; CStr "Skill:"; CStr "Sales"]
    = CStr (Py.remove_spaces s)
      :: (CStr <$> rest)
         ++ replicate (frame_width (out_grid skill_outcome) - S (length rest)) CMissing.
Proof.
  apply (normalizer_changes_first_cell_only skill_report skill_outcome 30
           [CStr "09:15"; CStr "Skill:"; CStr "Sales"]).
  - vm_compute. reflexivity.
  - vm_compute. left.
Defined.

Lemma insert_columns_fresh (md : list (string * cell)) (t t' : table) :
  for_each insert_column md t = Ok t' ->
  forall k, k ∈ md.*1 -> k ∉ tb_columns t.
Proof.
  revert t. induction md as [|[k0 v0] md IH]; intros t.
  - intros _ k Hk. now apply elem_of_nil in Hk.
  - change (for_each insert_column ((k0, v0) :: md) t)
      with (insert_column t (k0, v0) ≫= for_each insert_column md).
    intros (t1 & H1 & H)%bind_Ok k Hk.
    unfold insert_column in H1. simpl in H1.
    destruct (decide (k0 ∈ tb_columns t)) as [|Hfresh]; [discriminate|]. injection H1 as <-.
    rewrite fmap_cons in Hk. apply elem_of_cons in Hk as [->|Hk]; [exact Hfresh|].
    specialize (IH _ H k Hk). simpl in IH. intros Hin. apply IH. now right.
Qed.

Lemma lookup_key_elem {V} (d : list (string * V)) (k : string) (v : V) :
  lookup_key d k = Ok v -> (k, v) ∈ d.
Proof.
  induction d as [|[k' v'] d IH]; simpl; [discriminate|].
  destruct (decide (k' = k)) as [->|Hne].
  - intros [= ->]. left.
  - intros H. right. now apply IH.
Qed.

Lemma fix_timestamp_keys md md' :
  fix_timestamp md = Ok md' -> md'.*1 = md.*1 /\ "Date" ∈ md.*1.
Proof.
  unfold fix_timestamp.
  destruct (lookup_key md "Date") as [ts|] eqn:Hts; simpl; [|discriminate].
  returns (Strptime.strptime ts) as d.
  intros [= <-].
  assert ((prod_map id CStr <$> md).*1 = md.*1) as Hkeys.
  { rewrite <- list_fmap_compose. apply list_fmap_ext. now intros ? []. }
  assert ("Date" ∈ md.*1) as Hin.
  { apply lookup_key_elem in Hts. apply list_elem_of_fmap. now exists ("Date", ts). }
  split; [|exact Hin].
  rewrite setitem_keys_present; [exact Hkeys | now rewrite Hkeys].
Qed.

(** X16. A table that is produced has a "Date" column, and no metadata
    key is the name of a header column: a key that is also a header
    name makes the insertion of its column raise. *)
Theorem metadata_columns_apart_from_header (Label_elets : list label) (o : outcome) :
  transform Label_elets = Ok o ->
  "Date" ∈ tb_columns (out_table o) /\
  forall k, k ∈ (out_metadata o).*1 -> k ∉ out_titles o.
Proof.
  intros (d & t & md & Hc & Ht & Hg & Hm & Hf & Hn)%transform_Ok.
  apply normalize_Ok in Hn as (_ & _ & Hins).
  split.
  - apply insert_columns in Hins as [-> _]. simpl.
    apply fix_timestamp_keys in Hf as [Hkeys Hdate].
    apply elem_of_app. left. apply elem_of_reverse. now rewrite Hkeys.
  - intros k Hk. apply (insert_columns_fresh _ _ _ Hins k Hk).
Qed.

Lemma metadata_columns_apart_from_header_witness :
  "Date" ∈ tb_columns (out_table skill_outcome) /\
  forall k, k ∈ (out_metadata skill_outcome).*1 -> k ∉ out_titles skill_outcome.
Proof.
  apply (metadata_columns_apart_from_header skill_report skill_outcome).
  vm_compute. reflexivity.
Defined.

Lemma frame_width_attained (rows : list (Z * list string)) :
  (0 < frame_width rows)%nat ->
  exists k val, (k, val) ∈ rows /\ length val = frame_width rows.
Proof.
  unfold frame_width. induction rows as [|[k val] rows IH]; [simpl; lia|].
  rewrite fmap_cons. simpl foldr. intros Hpos.
  destruct (Nat.max_spec (length val)
              (foldr Nat.max 0%nat ((fun item => length item.2) <$> rows)))
    as [[Hlt ->]|[Hle ->]].
  - destruct IH as (k' & val' & Hin & Hlen); [lia|].
    exists k', val'. split; [now right | exact Hlen].
  - exists k, val. split; [left | reflexivity].
Qed.

(** X17. A run that ends well had a grid that fits its header: no row
    of the grid has more cells than there are column names, and one row
    at least has exactly that many. A wider row, or a header wider than
    every row, makes the naming of the columns raise instead. *)
Theorem grid_fits_header (Label_elets : list label) (o : outcome) :
  transform Label_elets = Ok o ->
  (forall k val, (k, val) ∈ out_grid o -> (length val <= length (out_titles o))%nat) /\
  (exists k val, (k, val) ∈ out_grid o /\ length val = length (out_titles o)).
Proof.
  intros (d & t & md & Hc & Ht & Hg & Hm & Hf & Hn)%transform_Ok.
  apply normalize_Ok in Hn as (Hw & Hlen & _). rewrite Hlen. split.
  - intros k val Hin. now apply frame_width_ge with k.
  - now apply frame_width_attained.
Qed.

Lemma grid_fits_header_witness :
  (forall k val, (k, val) ∈ out_grid skill_outcome ->
     (length val <= length (out_titles skill_outcome))%nat) /\
  (exists k val, (k, val) ∈ out_grid skill_outcome /\
     length val = length (out_titles skill_outcome)).
Proof.
  apply (grid_fits_header skill_report skill_outcome).
  vm_compute. reflexivity.
Defined.

Lemma lookup_key_fmap {V W} (f : V -> W) (d : list (string * V)) (k : string) (v : V) :
  lookup_key d k = Ok v -> lookup_key (prod_map id f <$> d) k = Ok (f v).
Proof.
  induction d as [|[k' v'] d IH]; simpl; [discriminate|].
  destruct (decide (k' = k)); [now intros [= ->] | exact IH].
Qed.

(** X18. The parse of the timestamp changes one value and nothing else:
    the record keeps its keys in their order, "Date" now holds the
    parsed date and time of the string it held, and every other key
    holds the string it held. *)
Theorem fix_timestamp_changes_date_only (md : list (string * string)) md' :
  fix_timestamp md = Ok md' ->
  md'.*1 = md.*1 /\
  (exists ts d, lookup_key md "Date" = Ok ts /\ Strptime.strptime ts = Ok d /\
                lookup_key md' "Date" = Ok (CDate d)) /\
  (forall k v, k <> "Date" -> lookup_key md k = Ok v -> lookup_key md' k = Ok (CStr v)).
Proof.
  intros Hf. split; [now apply fix_timestamp_keys in Hf|].
  unfold fix_timestamp in Hf.
  destruct (lookup_key md "Date") as [ts|] eqn:Hts; simpl in Hf; [|discriminate].
  destruct (Strptime.strptime ts) as [d|] eqn:Hd; simpl in Hf; [|discriminate].
  injection Hf as <-. split.
  - exists ts, d. split; [reflexivity|]. split; [exact Hd | apply setitem_lookup].
  - intros k v Hk Hv. rewrite setitem_lookup_ne by congruence. now apply lookup_key_fmap.
Qed.

Lemma fix_timestamp_changes_date_only_witness :
  [("Skill", CStr "Sales"); ("Date", CDate sample_date)].*1
  = [("Skill", "Sales"); ("Date", "10:00 AM Mon Jan 01, 2024")].*1 /\
  (exists ts d,
      lookup_key [("Skill", "Sales"); ("Date", "10:00 AM Mon Jan 01, 2024")] "Date" = Ok ts /\
      Strptime.strptime ts = Ok d /\
      lookup_key [("Skill", CStr "Sales"); ("Date", CDate sample_date)] "Date" = Ok (CDate d)) /\
  (forall k v, k <> "Date" ->
     lookup_key [("Skill", "Sales"); ("Date", "10:00 AM Mon Jan 01, 2024")] k = Ok v ->
     lookup_key [("Skill", CStr "Sales"); ("Date", CDate sample_date)] k = Ok (CStr v)).
Proof.
  apply (fix_timestamp_changes_date_only
           [("Skill", "Sales"); ("Date", "10:00 AM Mon Jan 01, 2024")]).
  vm_compute. reflexivity.
Defined.

(** ** The texts: cells and header tokens *)

Lemma replace_char_step (a c : ascii) (new r : string) :
  Py.replace (String a "") new (String c r)
  = if Py.is_char a c then new +:+ Py.replace (String a "") new r
    else String c (Py.replace (String a "") new r).
Proof.
  unfold Py.replace.
  change (Py.replace_from (String a "") new 0 (String c r))
    with (if String.prefix (String a "") (String c r)
          then new +:+ Py.replace_from (String a "") new 0 r
          else String c (Py.replace_from (String a "") new 0 r)).
  now rewrite prefix_cons, prefix_nil, andb_true_r.
Qed.

(** [s.replace(a, new)] leaves no [a] when [new] holds none *)
Lemma replace_char_free (a : ascii) (new s : string) :
  free_of a new = true -> free_of a (Py.replace (String a "") new s) = true.
Proof.
  intros Hnew. induction s as [|c s IH]; [reflexivity|].
  rewrite replace_char_step. destruct (Py.is_char a c) eqn:Hc.
  - now apply free_of_app.
  - unfold free_of in *. simpl. now rewrite Hc.
Qed.

Lemma push_char_Forall (P : string -> Prop) (c : ascii) (pieces : list string) :
  (forall s, P s -> P (String c s)) -> P (String c "") ->
  Forall P pieces -> Forall P (Py.push_char c pieces).
Proof.
  intros Hc H0 Hall. destruct Hall as [|hd tl Hhd Htl]; simpl.
  - now repeat constructor.
  - constructor; [now apply Hc | exact Htl].
Qed.

(** the pieces hold no pipe, and no character that the string has not *)
Lemma re_split_pipes_free (a : ascii) (s : string) :
  Py.is_char "|" a = true \/ free_of a s = true ->
  Forall (fun piece => free_of a piece = true) (Py.re_split_pipes s).
Proof.
  intros Ha. induction s as [|c s IH]; [now repeat constructor|].
  assert (Py.is_char "|" a = true \/ free_of a s = true) as Ha'.
  { destruct Ha as [Ha|Ha]; [now left | right; now apply free_of_cons in Ha]. }
  specialize (IH Ha'). simpl.
  destruct (Py.is_char "|" c) eqn:Hc.
  - destruct (Py.starts_with (Py.is_char "|") s); [exact IH | now constructor].
  - assert (Py.is_char a c = false) as Hac.
    { destruct Ha as [Ha|Ha]; [|now apply free_of_cons in Ha].
      apply is_char_eq in Ha as <-. exact Hc. }
    apply push_char_Forall; [| |exact IH]; unfold free_of; simpl; rewrite Hac; auto.
Qed.

(** X19. What the classifier hands on is clean: the text of a data
    point holds no no-break space and does not begin with whitespace,
    and a header token holds neither a pipe nor a no-break space. *)
Theorem classified_texts_are_clean (s : string) :
  free_of Py.nbsp (cell_text s) = true /\
  Py.starts_with Py.isspace (cell_text s) = false /\
  Forall (fun token => free_of "|" token = true /\ free_of Py.nbsp token = true)
         (title_tokens s).
Proof.
  split; [|split].
  - unfold cell_text. now apply replace_char_free.
  - destruct (cell_text_head s) as [->|(c & r & -> & Hc)]; [reflexivity | exact Hc].
  - unfold title_tokens. apply Forall_and. split.
    + apply re_split_pipes_free. now left.
    + apply re_split_pipes_free. right. now apply replace_char_free.
Qed.

(** ** The run as a whole *)

(** X20. An element without text does not matter to the run: the run
    on a document gives the result and leaves the output it gives on
    the document without that element, whatever the style of the
    element is. *)
Theorem textless_element_does_not_matter
  (TARGET_FILE : string) (useSQL : bool) (before after : list label) (i : label) :
  label_string i = None ->
  main TARGET_FILE useSQL (before ++ i :: after)
  = main TARGET_FILE useSQL (before ++ after).
Proof.
  intros Hi.
  assert (classify (before ++ i :: after) = classify (before ++ after)) as Hc.
  { unfold classify. rewrite !for_each_app.
    destruct (for_each classify_step before ([], [])) as [st|e]; simpl; [|reflexivity].
    now rewrite (classify_step_absent st i Hi). }
  unfold main, transform. now rewrite Hc.
Qed.

Lemma textless_element_does_not_matter_witness :
  main "report.html" false (sample_report ++ mk_label "no style at all" None :: [])
  = main "report.html" false (sample_report ++ []).
Proof.
  apply (textless_element_does_not_matter "report.html" false sample_report []
           (mk_label "no style at all" None)).
  reflexivity.
Defined.

(** *** The grid does not depend on the order of the document *)

Lemma NoDup_fmap_inj_on {A B} (f : A -> B) (l : list A) (x y : A) :
  NoDup (f <$> l) -> x ∈ l -> y ∈ l -> f x = f y -> x = y.
Proof.
  induction l as [|z l IH]; [now intros _ ?%elem_of_nil|].
  rewrite fmap_cons. intros [Hz Hnd]%NoDup_cons Hx Hy Hxy.
  apply elem_of_cons in Hx as [->|Hx]; apply elem_of_cons in Hy as [->|Hy].
  - reflexivity.
  - destruct Hz. rewrite Hxy. apply list_elem_of_fmap. eauto.
  - destruct Hz. rewrite <- Hxy. apply list_elem_of_fmap. eauto.
  - now apply IH.
Qed.

Lemma sort_by_col_row_perm (d d' : list data_point) (i : Z) :
  d ≡ₚ d' -> NoDup d.*1 ->
  sort_by_col (filter (fun p => row_of p = i) d)
  = sort_by_col (filter (fun p => row_of p = i) d').
Proof.
  intros Hperm Hnd.
  apply (StronglySorted_unique_strong col_le); try apply col_le_StronglySorted.
  - intros x1 x2 H1 H2 H12 H21. unfold col_le in *.
    rewrite sort_by_col_perm in H1, H2.
    apply list_elem_of_filter in H1 as [Hr1 H1].
    apply list_elem_of_filter in H2 as [Hr2 H2].
    rewrite <- Hperm in H2.
    apply (NoDup_fmap_inj_on fst d); [assumption..|].
    destruct x1 as [[r1 c1] s1], x2 as [[r2 c2] s2].
    unfold row_of, col_of in *. simpl in *. f_equal; lia.
  - now rewrite !sort_by_col_perm, Hperm.
Qed.

(** X21. When no two data points share a coordinate, the grid depends
    on the data points only, not on the order in which the document
    lists them: two documents with the same data points give one grid. *)
Theorem grid_independent_of_document_order (d d' : list data_point) :
  d ≡ₚ d' -> NoDup d.*1 -> sorted_rows_dict d = sorted_rows_dict d'.
Proof.
  intros Hperm Hnd. rewrite !sorted_rows_dict_rows.
  assert (row_indices_list d = row_indices_list d') as <-.
  { unfold row_indices_list, row_indices_set. now rewrite Hperm. }
  apply list_fmap_ext. intros n i _. f_equal. f_equal.
  now apply sort_by_col_row_perm.
Qed.

Lemma grid_independent_of_document_order_witness :
  sorted_rows_dict [((30, 50), "John"); ((30, 0), "09:15"); ((40, 0), "09:16")]
  = sorted_rows_dict [((30, 0), "09:15"); ((30, 50), "John"); ((40, 0), "09:16")].
Proof.
  apply (grid_independent_of_document_order
           [((30, 50), "John"); ((30, 0), "09:15"); ((40, 0), "09:16")]
           [((30, 0), "09:15"); ((30, 50), "John"); ((40, 0), "09:16")]).
  - apply Permutation_swap.
  - compute_done.
Defined.

(** ** Style Decoder: reading a coordinate *)

Lemma digit_facts (c : ascii) :
  Py.isdigit c = true ->
  Py.is_char "_" c = false /\ Py.is_char "+" c = false /\ Py.is_char "-" c = false /\
  Py.is_char "p" c = false /\ Py.int_space c = false /\ 0 <= Py.digit_value c.
Proof.
  destruct c as [[] [] [] [] [] [] [] []]; vm_compute; intros H;
    try discriminate H; repeat split; discriminate.
Qed.

Lemma int_space_not_p (c : ascii) : Py.int_space c = true -> Py.is_char "p" c = false.
Proof. destruct c as [[] [] [] [] [] [] [] []]; vm_compute; congruence. Qed.

Lemma replace_px_step (c : ascii) (r : string) :
  Py.is_char "p" c = false ->
  Py.replace "px" "" (String c r) = String c (Py.replace "px" "" r).
Proof.
  intros Hc. apply replace_keeps_head. now rewrite prefix_cons, Hc.
Qed.

Lemma replace_px_digits (t : string) :
  Py.all_chars Py.isdigit t = true -> Py.replace "px" "" (t +:+ "px") = t.
Proof.
  induction t as [|c t IH]; [reflexivity|]. simpl Py.all_chars.
  intros [Hc Ht]%andb_true_iff.
  change (String c t +:+ "px") with (String c (t +:+ "px")).
  rewrite replace_px_step by apply (digit_facts c Hc). now rewrite IH.
Qed.

Lemma replace_px_padded (pad t : string) :
  Py.all_chars Py.int_space pad = true -> Py.all_chars Py.isdigit t = true ->
  Py.replace "px" "" (pad +:+ t +:+ "px") = pad +:+ t.
Proof.
  intros Hpad Ht. induction pad as [|c pad IH]; [now apply replace_px_digits|].
  simpl in Hpad. apply andb_true_iff in Hpad as [Hc Hpad].
  change (String c pad +:+ t +:+ "px") with (String c (pad +:+ t +:+ "px")).
  rewrite replace_px_step by now apply int_space_not_p. now rewrite IH.
Qed.

Lemma rstrip_digits (t : string) :
  Py.all_chars Py.isdigit t = true -> Py.rstrip_by Py.int_space t = t.
Proof.
  induction t as [|c t IH]; [reflexivity|]. simpl Py.all_chars.
  intros [Hc Ht]%andb_true_iff. simpl. rewrite (IH Ht).
  destruct t; [|reflexivity].
  now rewrite (proj1 (proj2 (proj2 (proj2 (proj2 (digit_facts c Hc)))))).
Qed.

Lemma strip_padded_digits (pad t : string) :
  Py.all_chars Py.int_space pad = true -> Py.all_chars Py.isdigit t = true ->
  Py.strip_by Py.int_space (pad +:+ t) = t.
Proof.
  intros Hpad Ht. unfold Py.strip_by.
  assert (Py.lstrip_by Py.int_space (pad +:+ t) = t) as ->; [|now apply rstrip_digits].
  induction pad as [|c pad IH].
  - destruct t as [|c t]; [reflexivity|]. simpl in Ht.
    apply andb_true_iff in Ht as [Hc _]. simpl.
    now rewrite (proj1 (proj2 (proj2 (proj2 (proj2 (digit_facts c Hc)))))).
  - simpl in Hpad. apply andb_true_iff in Hpad as [Hc Hpad]. simpl.
    rewrite Hc. now apply IH.
Qed.

Lemma int_digits_digits (t : string) (acc : Z) :
  Py.all_chars Py.isdigit t = true -> 0 <= acc ->
  exists z, Py.int_digits acc true t = Some z /\ 0 <= z.
Proof.
  revert acc. induction t as [|c t IH]; intros acc Ht Hacc; [simpl; eauto|].
  simpl in Ht. apply andb_true_iff in Ht as [Hc Ht].
  destruct (digit_facts c Hc) as (Hu & _ & _ & _ & _ & Hv).
  simpl. rewrite Hu, Hc. apply IH; [exact Ht | lia].
Qed.

Lemma int_padded_digits (pad t : string) :
  t <> "" ->
  Py.all_chars Py.int_space pad = true -> Py.all_chars Py.isdigit t = true ->
  exists z, Py.int (pad +:+ t) = Ok z /\ Py.int t = Ok z /\ 0 <= z.
Proof.
  intros Hne Hpad Ht. unfold Py.int.
  rewrite (strip_padded_digits pad t Hpad Ht).
  rewrite (strip_padded_digits "" t eq_refl Ht : Py.strip_by Py.int_space t = t).
  destruct t as [|c t]; [congruence|].
  pose proof Ht as Ht'. simpl in Ht'. apply andb_true_iff in Ht' as [Hc Hrest].
  destruct (digit_facts c Hc) as (Hu & Hplus & Hminus & _ & _ & Hv).
  rewrite Hplus, Hminus. simpl. rewrite Hu, Hc.
  destruct (int_digits_digits t (10 * 0 + Py.digit_value c) Hrest) as (z & -> & Hz); [lia|].
  eauto.
Qed.

(** X22. The coordinate of a fragment is read from [top] and [left]
    alone: when each is a run of decimal digits followed by "px", with
    any whitespace before the digits (the blank that follows the colon
    of a declaration), the row is the number [top] spells and the column
    the number [left] spells, and neither is negative. *)
Theorem get_coordinates_reads_pixels
  (css : gmap string string) (pad_top top pad_left left : string) :
  top <> "" -> left <> "" ->
  Py.all_chars Py.isdigit top = true -> Py.all_chars Py.isdigit left = true ->
  Py.all_chars Py.int_space pad_top = true -> Py.all_chars Py.int_space pad_left = true ->
  css !! "top" = Some (pad_top +:+ top +:+ "px") ->
  css !! "left" = Some (pad_left +:+ left +:+ "px") ->
  exists i j,
    Py.int top = Ok i /\ Py.int left = Ok j /\ 0 <= i /\ 0 <= j /\
    get_coordinates css = Ok (i, j).
Proof.
  intros Hnt Hnl Ht Hl Hpt Hpl Htop Hleft.
  destruct (int_padded_digits pad_top top Hnt Hpt Ht) as (i & Hi & Hi' & Hi0).
  destruct (int_padded_digits pad_left left Hnl Hpl Hl) as (j & Hj & Hj' & Hj0).
  exists i, j. repeat split; try assumption.
  unfold get_coordinates, getitem. rewrite Htop, Hleft. simpl.
  rewrite !replace_px_padded by assumption. rewrite Hi, Hj. reflexivity.
Qed.

Lemma get_coordinates_reads_pixels_witness :
  exists i j,
    Py.int "120" = Ok i /\ Py.int "5" = Ok j /\ 0 <= i /\ 0 <= j /\
    get_coordinates (<["font" := " 12px verdana"]>
                       (<["left" := "5px"]> (<["top" := " 120px"]> ∅)))
    = Ok (i, j).
Proof.
  apply (get_coordinates_reads_pixels _ " " "120" "" "5");
    try discriminate; vm_compute; reflexivity.
Defined.

(** * The rows the extractor matches, and the table *)

Lemma setitem_key_in {V} (d : list (string * V)) (k : string) (v : V) :
  k ∈ (setitem d k v).*1.
Proof.
  destruct (decide (k ∈ d.*1)) as [Hin|Hin].
  - now rewrite setitem_keys_present.
  - rewrite setitem_keys_fresh by exact Hin. apply elem_of_app. right. left.
Qed.

Lemma setitem_keys_mono {V} (d : list (string * V)) (k x : string) (v : V) :
  x ∈ d.*1 -> x ∈ (setitem d k v).*1.
Proof.
  intros Hx. destruct (decide (k ∈ d.*1)) as [Hin|Hin].
  - now rewrite setitem_keys_present.
  - rewrite setitem_keys_fresh by exact Hin. apply elem_of_app. now left.
Qed.

Lemma metadata_cell_keys (val : list string) md (i : string) md' :
  metadata_cell val md i = Ok md' ->
  (forall x, x ∈ md.*1 -> x ∈ md'.*1) /\
  (Py.re_match_label i = true -> Py.collapse_spaces (but_last i) ∈ md'.*1).
Proof.
  unfold metadata_cell. destruct (Py.re_match_label i).
  - returns (list_item val (list_index i val + 1)) as v. intros [= <-]. split.
    + intros x Hx. now apply setitem_keys_mono.
    + intros _. apply setitem_key_in.
  - intros [= <-]. split; [auto | discriminate].
Qed.

Lemma metadata_cells_keys (val cells : list string) md md' :
  for_each (metadata_cell val) cells md = Ok md' ->
  (forall x, x ∈ md.*1 -> x ∈ md'.*1) /\
  (forall i, i ∈ cells -> Py.re_match_label i = true ->
     Py.collapse_spaces (but_last i) ∈ md'.*1).
Proof.
  revert md. induction cells as [|c cells IH]; intros md.
  - simpl. intros [= <-]. split; [auto|]. intros i Hi. now apply elem_of_nil in Hi.
  - change (for_each (metadata_cell val) (c :: cells) md)
      with (metadata_cell val md c ≫= for_each (metadata_cell val) cells).
    intros (md1 & H1 & Hrest)%bind_Ok.
    apply metadata_cell_keys in H1 as [Hmono1 Hc].
    apply IH in Hrest as [Hmono Hcells]. split.
    + intros x Hx. apply Hmono, Hmono1, Hx.
    + intros i [->|Hi]%elem_of_cons Hm; [apply Hmono, Hc, Hm | now apply Hcells].
Qed.

(** a turn of the loop keeps the keys it finds and adds those of its row *)
Lemma metadata_row_keys md (k : Z) (val : list string) md' :
  metadata_row md (k, val) = Ok md' ->
  (forall x, x ∈ md.*1 -> x ∈ md'.*1) /\
  (forall key, key ∈ row_labels val -> key ∈ md'.*1).
Proof.
  unfold metadata_row, row_labels. simpl.
  destruct (length val =? 1)%nat eqn:Hlen.
  - destruct val as [|v0 [|v1 rest]]; try discriminate. simpl.
    destruct (Py.re_match_label v0).
    + destruct (Py.split ":" v0) as [|k0 [|v more]]; simpl; try discriminate.
      intros [= <-]. split.
      * intros x Hx. now apply setitem_keys_mono.
      * intros key ->%list_elem_of_singleton. apply setitem_key_in.
    + intros [= <-]. split; [auto|]. intros key Hkey. now apply elem_of_nil in Hkey.
  - intros [Hmono Hcells]%metadata_cells_keys. split; [exact Hmono|].
    intros key (i & -> & [Hm Hi]%list_elem_of_filter)%list_elem_of_fmap.
    now apply Hcells.
Qed.

Lemma metadata_rows_keys_mono (rows : list (Z * list string)) md md' :
  for_each metadata_row rows md = Ok md' -> forall x, x ∈ md.*1 -> x ∈ md'.*1.
Proof.
  intros H. apply (for_each_invariant
                     (fun s : list (string * string) => forall x, x ∈ md.*1 -> x ∈ s.*1)
                     metadata_row rows) with (s := md) (s' := md'); [|auto|exact H].
  intros s [k val] s' Hs Hstep x Hx. apply metadata_row_keys in Hstep as [Hmono _].
  apply Hmono, Hs, Hx.
Qed.

(** every row of the grid leaves its keys in the record *)
Lemma extract_metadata_records (rows : list (Z * list string)) md (k : Z) val :
  extract_metadata rows = Ok md -> (k, val) ∈ rows ->
  forall key, key ∈ row_labels val -> key ∈ md.*1.
Proof.
  intros Hm (rows1 & rows2 & ->)%list_elem_of_split key Hkey.
  unfold extract_metadata in Hm. rewrite for_each_app in Hm.
  apply bind_Ok in Hm as (md1 & _ & Hm).
  change (for_each metadata_row ((k, val) :: rows2) md1)
    with (metadata_row md1 (k, val) ≫= for_each metadata_row rows2) in Hm.
  apply bind_Ok in Hm as (md2 & Hrow & Hrest).
  apply metadata_row_keys in Hrow as [_ Hrow].
  apply (metadata_rows_keys_mono _ _ _ Hrest), Hrow, Hkey.
Qed.

(** a row that the extractor matches has a key to record *)
Lemma metadata_row_has_label (val : list string) :
  is_metadata_row val = true -> row_labels val <> [].
Proof.
  unfold is_metadata_row, row_labels.
  destruct (length val =? 1)%nat eqn:Hlen.
  - destruct val as [|v0 [|v1 rest]]; try discriminate. simpl.
    rewrite andb_true_r. intros ->.
    destruct (Py.split ":" v0) as [|k0 more] eqn:Hsplit; [|discriminate].
    now apply split_from_not_nil in Hsplit.
  - intros (i & Hi & Hm)%existsb_exists Hnil.
    apply fmap_nil_inv in Hnil.
    assert (i ∈ filter (fun i => Py.re_match_label i = true) val) as Hin.
    { apply list_elem_of_filter. split; [exact Hm | now apply list_elem_of_In]. }
    rewrite Hnil in Hin. now apply elem_of_nil in Hin.
Qed.

(** C1 (as the code has it). The extractor takes no row out. A grid row
    that it matches is recorded: it has a key, and each of its keys is a
    key of the metadata record and the name of a column of the table.
    The rows of the table are made of the whole grid: they are the rows
    the normalizer keeps of it, each behind the metadata values. So a
    matched row is among the rows that are kept exactly when its first
    cell is not rejected, that is when that cell is not empty, holds no
    letter and holds no run of dashes, and then the table has the row
    made of it. *)
Theorem C1_metadata_rows_leave_by_first_cell
  (Label_elets : list label) d t (o : outcome) (k : Z) (val : list string) :
  classify Label_elets = Ok (d, t) ->
  transform Label_elets = Ok o ->
  (k, val) ∈ sorted_rows_dict d ->
  is_metadata_row val = true ->
  (row_labels val <> [] /\
   forall key, key ∈ row_labels val ->
     key ∈ (out_metadata o).*1 /\ key ∈ tb_columns (out_table o)) /\
  tb_rows (out_table o)
  = app (reverse (out_metadata o).*2) <$> (table_body (sorted_rows_dict d)).*2 /\
  (k ∈ (table_body (sorted_rows_dict d)).*1 <->
   exists s rest, val = s :: rest /\ rejected_first_cell s = false) /\
  (forall s rest, val = s :: rest -> rejected_first_cell s = false ->
     reverse (out_metadata o).*2
     ++ CStr (Py.remove_spaces s)
        :: (CStr <$> rest)
           ++ replicate (frame_width (sorted_rows_dict d) - S (length rest)) CMissing
     ∈ tb_rows (out_table o)).
Proof.
  intros Hcd (d' & t' & md & Hc & Ht & Hg & Hm & Hf & Hn)%transform_Ok Hin Hmatch.
  rewrite Hcd in Hc. injection Hc as <- <-. rewrite Hg in Hm, Hn.
  apply normalize_Ok in Hn as (Hw & _ & Hins).
  apply insert_columns in Hins as [Hcols Hrows]. simpl in Hcols, Hrows.
  fold (table_body (sorted_rows_dict d)) in Hrows.
  split; [|split; [exact Hrows|split]].
  - split; [now apply metadata_row_has_label|]. intros key Hkey.
    assert (key ∈ (out_metadata o).*1) as Hrec.
    { apply fix_timestamp_keys in Hf as [-> _].
      now apply (extract_metadata_records _ _ k val Hm Hin). }
    split; [exact Hrec|]. rewrite Hcols. apply elem_of_app. left.
    now apply elem_of_reverse.
  - split.
    + intros (kc & Hk & Hkc)%list_elem_of_fmap.
      destruct kc as [k' cells]. simpl in Hk. subst k'.
      apply elem_of_table_body in Hkc as (s & rest & Hin' & Hs & _); [|exact Hw].
      exists s, rest. split; [|exact Hs].
      apply (NoDup_fst_functional (sorted_rows_dict d) k); [|assumption..].
      apply sorted_rows_dict_NoDup.
    + intros (s & rest & -> & Hs).
      apply list_elem_of_fmap.
      exists (k, clean_first (pad_row (frame_width (sorted_rows_dict d)) (s :: rest))).
      split; [reflexivity|]. apply elem_of_table_body; eauto.
  - intros s rest -> Hs. rewrite Hrows.
    apply list_elem_of_fmap.
    exists (clean_first (pad_row (frame_width (sorted_rows_dict d)) (s :: rest))).
    split; [now rewrite clean_first_pad_row|].
    apply list_elem_of_fmap.
    exists (k, clean_first (pad_row (frame_width (sorted_rows_dict d)) (s :: rest))).
    split; [reflexivity|]. apply elem_of_table_body; eauto.
Qed.

Lemma C1_witness :
  "Skill" ∈ tb_columns (out_table skill_outcome) /\
  [CStr "Sales"; CDate sample_date; CStr "09:15"; CStr "Skill:"; CStr "Sales"]
    ∈ tb_rows (out_table skill_outcome) /\
  30 ∈ (table_body (out_grid skill_outcome)).*1.
Proof.
  destruct (C1_metadata_rows_leave_by_first_cell skill_report
              [((0, 50), "Agent|Skill"); ((5, 50), "Name|Group"); ((20, 0), "Date:");
               ((20, 50), "10:00 AM Mon Jan 01, 2024"); ((30, 0), "09:15");
               ((30, 50), "Skill:"); ((30, 90), "Sales")]
              [["Agent"; "Skill"]; ["Name"; "Group"]]
              skill_outcome 30 ["09:15"; "Skill:"; "Sales"])
    as ((_ & Hrec) & _ & Hiff & Hrow).
  - vm_compute. reflexivity.
  - vm_compute. reflexivity.
  - vm_compute. do 3 right. left.
  - vm_compute. reflexivity.
  - split; [|split].
    + apply (Hrec "Skill"). vm_compute. left.
    + apply (Hrow "09:15" ["Skill:"; "Sales"]); [reflexivity | vm_compute; reflexivity].
    + apply Hiff. exists "09:15", ["Skill:"; "Sales"].
      split; [reflexivity | vm_compute; reflexivity].
Defined.

(** C1, the claim as stated fails: the row at 30 holds the label
    "Skill:" and its value, the extractor records them, and the row is
    in the table all the same. *)
Lemma C1_matched_row_reaches_table :
  is_metadata_row ["09:15"; "Skill:"; "Sales"] = true /\
  extract_metadata [(30, ["09:15"; "Skill:"; "Sales"])] = Ok [("Skill", "Sales")] /\
  transform skill_report = Ok skill_outcome.
Proof. repeat split; vm_compute; reflexivity. Qed.

